(** * Deadline Cloud for Maya: the Arnold render handler and the submitter
    MEL commands.

    A shallow embedding of
      - [deadline/maya_adaptor/MayaClient/render_handlers/arnold_handler.py]
      - [deadline/maya_submitter/mel_commands.py]
    Python dictionaries are finite maps over strings, the Maya scene is an
    attribute store with a log of the calls made on it, and a method is a
    state transformer that either returns or raises. *)

From Stdlib Require Import ZArith Lia Ascii.
From stdpp Require Import base option strings pretty gmap.

Local Open Scope Z_scope.

(** ** Python values and exceptions *)

Module Py.

(** The values that travel in the adaptor's run-data and in Maya
    attributes: [None], booleans, integers and strings. *)
Inductive pyval : Type :=
  | VNone : pyval
  | VBool : bool → pyval
  | VInt : Z → pyval
  | VStr : string → pyval.

#[global] Instance pyval_eq_dec : EqDecision pyval.
Proof. solve_decision. Defined.

Inductive exn : Type :=
  | RuntimeError : string → exn
  | TypeError : exn
  | ZeroDivisionError : exn
  | IndexError : exn
  | OtherError : string → exn.

#[global] Instance exn_eq_dec : EqDecision exn.
Proof. solve_decision. Defined.

(** [d.get(k)]: the value at [k], [None] when the key is absent. *)
Definition get (d : gmap string pyval) (k : string) : pyval :=
  default VNone (d !! k).

(** [d.get(k, dflt)] *)
Definition get_default (d : gmap string pyval) (k : string) (dflt : pyval) : pyval :=
  default dflt (d !! k).

(** [v is None] *)
Definition is_none (v : pyval) : bool :=
  match v with VNone => true | _ => false end.

(** [isinstance(v, int)]: [bool] is a subclass of [int]. *)
Definition isinstance_int (v : pyval) : bool :=
  match v with VBool _ | VInt _ => true | _ => false end.

(** The integer a value stands for in arithmetic, when it is an [int]. *)
Definition int_of (v : pyval) : option Z :=
  match v with
  | VInt z => Some z
  | VBool b => Some (if b then 1 else 0)
  | _ => None
  end.

(** [str(v)], which is what an f-string field [{v}] prints. *)
Definition str (v : pyval) : string :=
  match v with
  | VNone => "None"
  | VBool true => "True"
  | VBool false => "False"
  | VInt z => pretty z
  | VStr s => s
  end.

(** [divmod(a, b)]: floor division, as [Z.div_eucl] for a non-zero
    divisor; operands are type-checked before the divisor is tested. *)
Definition divmod (a b : pyval) : exn + Z * Z :=
  match int_of a, int_of b with
  | Some x, Some y =>
      if y =? 0 then inl ZeroDivisionError else inr (Z.div_eucl x y)
  | _, _ => inl TypeError
  end.

(** [a < n] for an integer literal [n]. *)
Definition lt_int (a : pyval) (n : Z) : exn + bool :=
  match int_of a with
  | Some x => inr (x <? n)
  | None => inl TypeError
  end.

End Py.

Import Py.

(** ** The Maya scene as seen through [maya.cmds] *)

Module Maya.

(** The calls that leave a trace: [setAttr], [print] and [arnoldRender].
    The renderer is a logged call that returns; what it does to the
    scene is Arnold's business, not the handler's. *)
Inductive event : Type :=
  | ESetAttr : string → pyval → event
  | EPrint : string → event
  | EArnoldRender : gmap string pyval → event.

(** The scene: the value of every attribute the handler addresses (they
    all live on nodes every Arnold scene has: [defaultResolution],
    [defaultArnoldRenderOptions], [defaultRenderGlobals]) and the calls
    made so far, oldest first. *)
Record Host : Type := mkHost {
  attr : string → pyval;
  log : list event
}.

Definition getAttr (w : Host) (name : string) : pyval := attr w name.

Definition setAttr (name : string) (v : pyval) (w : Host) : Host :=
  {| attr := λ n, if String.eqb n name then v else attr w n;
     log := log w ++ [ESetAttr name v] |}.

Definition emit (e : event) (w : Host) : Host :=
  {| attr := attr w; log := log w ++ [e] |}.

Definition is_setAttr (e : event) : bool :=
  match e with ESetAttr _ _ => true | _ => false end.

Definition is_render (e : event) : bool :=
  match e with EArnoldRender _ => true | _ => false end.

End Maya.

Import Maya.

(** ** [ArnoldHandler] *)

Module Arnold.

(** The handler instance: [self.render_kwargs], the keyword arguments
    accumulated for [maya.cmds.arnoldRender]. *)
Record Handler : Type := mkHandler {
  render_kwargs : gmap string pyval
}.

Definition State : Type := Handler * Host.

(** A method body: it transforms the handler and the scene and either
    returns a value or raises. What was written before a raise stays
    written. *)
Definition M (A : Type) : Type := State → State * (exn + A).

#[global] Instance M_ret : MRet M := λ A a s, (s, inr a).

#[global] Instance M_bind : MBind M := λ A B k m s,
  match m s with
  | (s', inr a) => k a s'
  | (s', inl e) => (s', inl e)
  end.

Definition raise {A : Type} (e : exn) : M A := λ s, (s, inl e).

Definition lift {A : Type} (r : exn + A) : M A := λ s, (s, r).

Definition kwargs : M (gmap string pyval) :=
  λ s, (s, inr (render_kwargs (fst s))).

(** [self.render_kwargs[k] = v] *)
Definition set_kwarg (k : string) (v : pyval) : M unit :=
  λ s, ((mkHandler (<[k := v]> (render_kwargs (fst s))), snd s), inr tt).

(** [m[k]] *)
Definition subscript (m : gmap string pyval) (k : string) : exn + pyval :=
  match m !! k with
  | Some v => inr v
  | None => inl (OtherError "KeyError")
  end.

Definition cmds_getAttr (name : string) : M pyval :=
  λ s, (s, inr (getAttr (snd s) name)).

Definition cmds_setAttr (name : string) (v : pyval) : M unit :=
  λ s, ((fst s, setAttr name v (snd s)), inr tt).

Definition print (line : string) : M unit :=
  λ s, ((fst s, emit (EPrint line) (snd s)), inr tt).

Definition cmds_arnoldRender (kw : gmap string pyval) : M unit :=
  λ s, ((fst s, emit (EArnoldRender kw) (snd s)), inr tt).

(** An operand of integer arithmetic. *)
Definition as_int (v : pyval) : M Z :=
  match int_of v with
  | Some z => mret z
  | None => raise TypeError
  end.

(** [ArnoldHandler.__init__], on the keyword arguments that
    [DefaultMayaHandler.__init__] leaves in [self.render_kwargs]. *)
Definition ArnoldHandler_init (super_kwargs : gmap string pyval) : Handler :=
  mkHandler (<["batch" := VBool true]> super_kwargs).

(** Lines 74-83 of [start_render]: the inclusive pixel bounds
    [(minX, maxX, minY, maxY)] of tile [(tileNumX, tileNumY)]. *)
Definition tile_region
    (deltaX widthRemainder deltaY heightRemainder : Z)
    (numXTiles numYTiles tileNumX tileNumY : Z) : Z * Z * Z * Z :=
  let minX := deltaX * (tileNumX - 1) in
  let maxX := deltaX * tileNumX - 1 in
  let minY := deltaY * (tileNumY - 1) in
  let maxY := deltaY * tileNumY - 1 in
  let maxX := if tileNumX =? numXTiles then maxX + widthRemainder else maxX in
  let maxY := if tileNumY =? numYTiles then maxY + heightRemainder else maxY in
  (minX, maxX, minY, maxY).

(** Lines 67-83 on integers: the bounds of a tile of a [W] x [H] image
    cut into [Nx] x [Ny] tiles. *)
Definition tile_bounds (W H Nx Ny tx ty : Z) : Z * Z * Z * Z :=
  let '(deltaX, widthRemainder) := Z.div_eucl W Nx in
  let '(deltaY, heightRemainder) := Z.div_eucl H Ny in
  tile_region deltaX widthRemainder deltaY heightRemainder Nx Ny tx ty.

(** Line 98: the image file prefix of a tile. *)
Definition tile_prefix (tileNumY tileNumX numYTiles numXTiles prefix : pyval) : string :=
  "_tile_" +:+ str tileNumY +:+ "x" +:+ str tileNumX +:+ "_" +:+
  str numYTiles +:+ "x" +:+ str numXTiles +:+ "_" +:+ str prefix.

Definition newline : string := String "010"%char EmptyString.

Section Handler.

(** [DefaultMayaHandler.get_camera_to_render], which this handler
    inherits: it reads the handler and the scene and returns the camera,
    or raises [RuntimeError] with the message on the left when no camera
    was specified and no renderable camera was found. *)
Variable get_camera_to_render : State → gmap string pyval → string + pyval.

Definition camera_to_render (data : gmap string pyval) : M pyval :=
  λ s, (s, match get_camera_to_render s data with
           | inl msg => inl (RuntimeError msg)
           | inr camera => inr camera
           end).

(** Lines 36-47, for ["width"] and for ["height"]. *)
Definition default_resolution (key attribute : string) : M unit :=
  kw ← kwargs ;
  match kw !! key with
  | None =>
      v ← cmds_getAttr attribute ;
      set_kwarg key v ;;
      kw' ← kwargs ;
      v' ← lift (subscript kw' key) ;
      print ("No " +:+ key +:+ " was specified, defaulting to " +:+ str v')
  | Some _ => mret tt
  end.

(** Lines 54-102: the body of the tile rendering branch. *)
Definition tile_setup (data : gmap string pyval) (numXTiles numYTiles : pyval) : M unit :=
  if negb (isinstance_int numXTiles) || negb (isinstance_int numYTiles) then
    raise (RuntimeError "numXTiles and numYTiles variables from run-data must be integers")
  else
    let tileNumX := get data "tileNumX" in
    let tileNumY := get data "tileNumY" in
    if negb (isinstance_int tileNumX) || negb (isinstance_int tileNumY) then
      raise (RuntimeError "tileNumX and tileNumY variables from run-data must be integers")
    else
      kw ← kwargs ;
      width ← lift (subscript kw "width") ;
      dx ← lift (divmod width numXTiles) ;
      height ← lift (subscript kw "height") ;
      dy ← lift (divmod height numYTiles) ;
      nx ← as_int numXTiles ;
      ny ← as_int numYTiles ;
      tx ← as_int tileNumX ;
      ty ← as_int tileNumY ;
      let '(minX, maxX, minY, maxY) :=
        tile_region (fst dx) (snd dx) (fst dy) (snd dy) nx ny tx ty in
      cmds_setAttr "defaultArnoldRenderOptions.regionMinX" (VInt minX) ;;
      cmds_setAttr "defaultArnoldRenderOptions.regionMaxX" (VInt maxX) ;;
      cmds_setAttr "defaultArnoldRenderOptions.regionMinY" (VInt minY) ;;
      cmds_setAttr "defaultArnoldRenderOptions.regionMaxY" (VInt maxY) ;;
      print ("minX=" +:+ pretty minX +:+ ", maxX=" +:+ pretty maxX +:+
             ", minY=" +:+ pretty minY +:+ ", maxY=" +:+ pretty maxY) ;;
      let prefix := get data "output_file_prefix" in
      cmds_setAttr "defaultRenderGlobals.imageFilePrefix"
        (VStr (tile_prefix tileNumY tileNumX numYTiles numXTiles prefix)) ;;
      shown ← cmds_getAttr "defaultRenderGlobals.imageFilePrefix" ;
      print ("Output file name: " +:+ str shown).

(** Lines 49-102. *)
Definition configure_tiles (data : gmap string pyval) : M unit :=
  let numXTiles := get data "numXTiles" in
  let numYTiles := get data "numYTiles" in
  if negb (is_none numXTiles) && negb (is_none numYTiles)
  then tile_setup data numXTiles numYTiles
  else mret tt.

(** Lines 104-112. *)
Definition finish_render (frame : pyval) : M unit :=
  cmds_setAttr "defaultArnoldRenderOptions.renderType" (VInt 0) ;;
  verbosity ← cmds_getAttr "defaultArnoldRenderOptions.log_verbosity" ;
  low ← lift (lt_int verbosity 2) ;
  (if low : bool
   then cmds_setAttr "defaultArnoldRenderOptions.log_verbosity" (VInt 2)
   else mret tt) ;;
  kw ← kwargs ;
  cmds_arnoldRender kw ;;
  print ("MayaClient: Finished Rendering Frame " +:+ str frame +:+ newline).

Definition start_render (data : gmap string pyval) : M unit :=
  let frame := get data "frame" in
  if is_none frame then
    raise (RuntimeError "MayaClient: start_render called without a frame number.")
  else
    set_kwarg "seq" frame ;;
    camera ← camera_to_render data ;
    set_kwarg "camera" camera ;;
    default_resolution "width" "defaultResolution.width" ;;
    default_resolution "height" "defaultResolution.height" ;;
    configure_tiles data ;;
    finish_render frame.

(** [set_error_on_arnold_license_fail] *)
Definition set_error_on_arnold_license_fail (data : gmap string pyval) : M unit :=
  let val := get_default data "error_on_arnold_license_fail" (VBool true) in
  cmds_setAttr "defaultArnoldRenderOptions.abortOnLicenseFail" val.

End Handler.

(** The three components of a run. *)
Definition handler_after {A : Type} (r : State * (exn + A)) : Handler := fst (fst r).
Definition scene_after {A : Type} (r : State * (exn + A)) : Host := snd (fst r).
Definition outcome {A : Type} (r : State * (exn + A)) : exn + A := snd r.

(** A step that leaves [self] as it is. *)
Definition keeps_handler {A : Type} (m : M A) : Prop :=
  ∀ s, handler_after (m s) = fst s.

(** The keyword arguments of the [arnoldRender] calls in a log. *)
Definition rendered (events : list event) : list (gmap string pyval) :=
  omap (λ e, match e with EArnoldRender kw => Some kw | _ => None end) events.

(** Events that neither set an attribute nor start the renderer. *)
Definition quiet (events : list event) : Prop :=
  Forall (λ e, is_setAttr e = false ∧ is_render e = false) events.

(** Pixel [(x, y)] lies in the inclusive region [(minX, maxX, minY, maxY)]. *)
Definition in_tile (region : Z * Z * Z * Z) (x y : Z) : Prop :=
  let '(minX, maxX, minY, maxY) := region in
  minX ≤ x ≤ maxX ∧ minY ≤ y ≤ maxY.

(** One axis of [tile_region]: the bounds of tile [t] of [n], for tiles of
    [delta] pixels and [remainder] more in the last one. *)
Definition axis_min (delta t : Z) : Z := delta * (t - 1).
Definition axis_max (delta remainder n t : Z) : Z :=
  if t =? n then delta * t - 1 + remainder else delta * t - 1.

(** Statement: whenever ["width"] is not in the working configuration,
    a call of [start_render] leaves it there, set to the scene's
    [defaultResolution.width]. *)
Definition resolution_defaulted_by_every_call
    (get_camera_to_render : State → gmap string pyval → string + pyval) : Prop :=
  ∀ (data : gmap string pyval) (h : Handler) (w : Host),
    render_kwargs h !! "width" = None →
    render_kwargs (handler_after (start_render get_camera_to_render data (h, w))) !! "width"
    = Some (getAttr w "defaultResolution.width").


(** *** Sample inputs *)

(** A scene with one renderable camera. *)
Definition persp_camera : State → gmap string pyval → string + pyval :=
  λ _ _, inr (VStr "persp").

(** A scene of the given resolution and Arnold log verbosity. *)
Definition scene (width height verbosity : Z) : Host :=
  {| attr := λ name,
       if String.eqb name "defaultResolution.width" then VInt width
       else if String.eqb name "defaultResolution.height" then VInt height
       else if String.eqb name "defaultArnoldRenderOptions.log_verbosity" then VInt verbosity
       else VNone;
     log := [] |}.

Definition frame_data (frame : Z) : gmap string pyval :=
  {[ "frame" := VInt frame ]}.

Definition tile_data (frame numXTiles numYTiles tileNumX tileNumY : pyval)
    (prefix : string) : gmap string pyval :=
  <["frame" := frame]> (<["numXTiles" := numXTiles]> (<["numYTiles" := numYTiles]>
  (<["tileNumX" := tileNumX]> (<["tileNumY" := tileNumY]>
  (<["output_file_prefix" := VStr prefix]> ∅))))).

(** A fresh handler, and the run-data of tile (3, 1) of 3 x 2. *)
Definition fresh_handler : Handler := ArnoldHandler_init ∅.

Definition tile_3_1 : gmap string pyval :=
  tile_data (VInt 1) (VInt 3) (VInt 2) (VInt 3) (VInt 1) "img".

(** The same with a tile count that came as text. *)
Definition tile_3_1_text : gmap string pyval :=
  tile_data (VInt 1) (VStr "3") (VInt 2) (VInt 3) (VInt 1) "img".

(** *** The resolution actions *)

Section Actions.

(** The built-in [int(s)] on a string: the integer it denotes, or nothing
    when [int] raises [ValueError]. *)
Variable int_of_str : string → option Z.

(** [int(v)] *)
Definition py_int (v : pyval) : exn + Z :=
  match v with
  | VNone => inl TypeError
  | VBool b => inr (if b then 1 else 0)
  | VInt z => inr z
  | VStr s =>
      match int_of_str s with
      | Some z => inr z
      | None => inl (OtherError "ValueError")
      end
  end.

(** [set_image_height] *)
Definition set_image_height (data : gmap string pyval) : M unit :=
  yresolution ← lift (py_int (get_default data "image_height" (VInt 0))) ;
  if negb (yresolution =? 0)
  then set_kwarg "height" (VInt yresolution)
  else mret tt.

(** [set_image_width] *)
Definition set_image_width (data : gmap string pyval) : M unit :=
  xresolution ← lift (py_int (get_default data "image_width" (VInt 0))) ;
  if negb (xresolution =? 0)
  then set_kwarg "width" (VInt xresolution)
  else mret tt.

End Actions.

(** *** What the properties speak of *)

(** The attributes [start_render] may set. *)
Definition tile_attributes : list string :=
  ["defaultArnoldRenderOptions.regionMinX";
   "defaultArnoldRenderOptions.regionMaxX";
   "defaultArnoldRenderOptions.regionMinY";
   "defaultArnoldRenderOptions.regionMaxY";
   "defaultRenderGlobals.imageFilePrefix"].

Definition render_attributes : list string :=
  ["defaultArnoldRenderOptions.renderType";
   "defaultArnoldRenderOptions.log_verbosity"].

(** The keys of [render_kwargs] that [start_render] may write. *)
Definition start_render_keys : list string := ["seq"; "camera"; "width"; "height"].

(** A step that sets no attribute outside [names]. *)
Definition sets_only {A : Type} (names : list string) (m : M A) : Prop :=
  ∀ s name, name ∉ names → getAttr (scene_after (m s)) name = getAttr (snd s) name.

(** A step that does not call the renderer. *)
Definition renders_nothing {A : Type} (m : M A) : Prop :=
  ∀ s, rendered (log (scene_after (m s))) = rendered (log (snd s)).

(** A step that sets no attribute at all and does not call the renderer:
    the scene's attributes stay, and the log grows by prints only. *)
Definition reads_only {A : Type} (m : M A) : Prop :=
  ∀ s, attr (scene_after (m s)) = attr (snd s) ∧
       ∃ events, log (scene_after (m s)) = log (snd s) ++ events ∧ quiet events.

(** The resolution a call works with: the entry of [render_kwargs], or
    the scene's attribute when there is none. *)
Definition resolved (key attribute : string) (h : Handler) (w : Host) : pyval :=
  default (getAttr w attribute) (render_kwargs h !! key).

(** The characters of a printed integer. *)
Definition numeral_char (c : ascii) : bool :=
  match c with
  | "0" | "1" | "2" | "3" | "4" | "5" | "6" | "7" | "8" | "9" | "-" => true
  | _ => false
  end%char.

Fixpoint numeral (s : string) : bool :=
  match s with
  | EmptyString => true
  | String c s' => numeral_char c && numeral s'
  end.

(** A scene with a licence flag beside the resolution. *)
Definition licensed_scene : Host :=
  setAttr "defaultArnoldRenderOptions.abortOnLicenseFail" (VBool false)
    (scene 1920 1080 1).

(** Statement: whenever the run-data holds integer tile counts and
    indices, a call of [start_render] leaves the image file prefix of the
    tile in [defaultRenderGlobals.imageFilePrefix]. *)
Definition tile_prefix_set_by_every_tile_call
    (get_camera_to_render : State → gmap string pyval → string + pyval) : Prop :=
  ∀ (data : gmap string pyval) (h : Handler) (w : Host),
    get data "numXTiles" ≠ VNone →
    get data "numYTiles" ≠ VNone →
    isinstance_int (get data "numXTiles") = true →
    isinstance_int (get data "numYTiles") = true →
    isinstance_int (get data "tileNumX") = true →
    isinstance_int (get data "tileNumY") = true →
    getAttr (scene_after (start_render get_camera_to_render data (h, w)))
      "defaultRenderGlobals.imageFilePrefix"
    = VStr (tile_prefix (get data "tileNumY") (get data "tileNumX")
              (get data "numYTiles") (get data "numXTiles")
              (get data "output_file_prefix")).

(** The run-data of tile (1, 1) of a frame cut into 0 x 2 tiles. *)
Definition tile_zero_columns : gmap string pyval :=
  tile_data (VInt 1) (VInt 0) (VInt 2) (VInt 1) (VInt 1) "img".

(** A scene whose log verbosity holds a string. *)
Definition mistyped_scene : Host :=
  setAttr "defaultArnoldRenderOptions.log_verbosity" (VStr "info") (scene 1920 1080 1).

(** A scene in which no camera can be found. *)
Definition no_camera : State → gmap string pyval → string + pyval :=
  λ _ _, inl "No camera was specified and no renderable camera was found.".

(** Decimal digits only: enough of [int(s)] for the samples. *)
Definition sample_int_of_str (s : string) : option Z :=
  if String.eqb s "800" then Some 800 else None.

End Arnold.

(** ** The submitter MEL commands *)

Module Submitter.

(** [om.MGlobal.mayaState()] *)
Inductive MayaState : Type :=
  | kInteractive
  | kBatch
  | kLibraryApp
  | kBaseUIMode.

#[global] Instance MayaState_eq_dec : EqDecision MayaState.
Proof. solve_decision. Defined.

(** A top-level Qt widget. *)
Record Widget : Type := mkWidget {
  objectName : string;
  handle : nat
}.

Section Command.

(** [RenderSubmitterSettings] and [RenderSubmitterUISettings], with the
    operations [doIt] uses on them. *)
Variables Settings UISettings : Type.
(** [RenderSubmitterUISettings()] *)
Variable default_ui_settings : UISettings.
(** [rs_settings.apply_saved_settings(saved)] *)
Variable apply_saved_settings : UISettings → Settings → UISettings.
(** The truth value of a loaded settings object. *)
Variable truthy : Settings → bool.
(** [json.dumps(dataclasses.asdict(rs_settings))] *)
Variable dumps_asdict : UISettings → string.
(** [gui_error_handler(title, parent)]: what leaves the [with] block when
    its body raises. *)
Variable gui_error_handler : string → Widget → exn → option exn.

(** What [RenderSubmitterSettings.load()] does when it is called. *)
Inductive LoadOutcome : Type :=
  | LoadReturns : option Settings → LoadOutcome
  | LoadRaisesPersistentDataclassError : LoadOutcome
  | LoadRaises : exn → LoadOutcome.

(** What the command finds when it runs. *)
Record Env : Type := mkEnv {
  mayaState : MayaState;
  topLevelWidgets : list Widget;
  sceneName : string;
  load : LoadOutcome
}.

(** What the command does, in order. The logger, the dialog,
    [setResult] and [show_maya_render_submitter] are calls into Maya, Qt
    and the submitter's other modules: each is logged and returns. *)
Inductive event : Type :=
  | ELoggerInfo : string → event
  | EConfirmDialog : string → string → string → string → event
  | ELoadSettings : event
  | ETracebackPrintExc : event
  | ESetResult : string → event
  | EShowSubmitter : Widget → UISettings → event
  | EGuiErrorHandler : string → Widget → exn → event.

Definition unsaved_message : string :=
  "The Maya Scene is not saved to disk. Please save it before opening the submitter dialog.".

(** Lines 66-74, once [maybe_rs_settings] is known. *)
Definition open_submitter (mainwin : Widget) (maybe_rs_settings : option Settings)
    : list event :=
  let rs_settings := default_ui_settings in
  let rs_settings :=
    match maybe_rs_settings with
    | Some saved => if truthy saved then apply_saved_settings rs_settings saved
                    else rs_settings
    | None => rs_settings
    end in
  [ESetResult (dumps_asdict rs_settings); EShowSubmitter mainwin rs_settings].

(** Lines 47-74: the body of the [with gui_error_handler(...)] block. *)
Definition doIt_body (env : Env) (mainwin : Widget) : list event * (exn + unit) :=
  let opening := ELoggerInfo "Opening Amazon Deadline Cloud Submitter" in
  if String.eqb (sceneName env) "" then
    ([opening;
      EConfirmDialog "Deadline Cloud Submitter" unsaved_message "OK" "OK"],
     inr tt)
  else
    match load env with
    | LoadReturns maybe_rs_settings =>
        (opening :: ELoadSettings :: open_submitter mainwin maybe_rs_settings, inr tt)
    | LoadRaisesPersistentDataclassError =>
        (opening :: ELoadSettings :: ETracebackPrintExc :: open_submitter mainwin None,
         inr tt)
    | LoadRaises e => ([opening; ELoadSettings], inl e)
    end.

(** [DeadlineCloudSubmitterCmd.doIt] *)
Definition doIt (env : Env) : list event * (exn + unit) :=
  if bool_decide (mayaState env ∈ [kInteractive; kBaseUIMode]) then
    match filter (λ widget, objectName widget = "MayaWindow") (topLevelWidgets env) with
    | [] => ([], inl IndexError)
    | mainwin :: _ =>
        let title := "Error opening the Deadline Cloud Submitter" in
        match doIt_body env mainwin with
        | (events, inr tt) => (events, inr tt)
        | (events, inl e) =>
            (events ++ [EGuiErrorHandler title mainwin e],
             match gui_error_handler title mainwin e with
             | Some e' => inl e'
             | None => inr tt
             end)
        end
    end
  else ([], inr tt).

Definition is_load (e : event) : bool :=
  match e with ELoadSettings => true | _ => false end.

Definition is_setResult (e : event) : bool :=
  match e with ESetResult _ => true | _ => false end.

Definition is_show (e : event) : bool :=
  match e with EShowSubmitter _ _ => true | _ => false end.

Definition is_dialog (e : event) : bool :=
  match e with EConfirmDialog _ _ _ _ => true | _ => false end.

Definition is_traceback (e : event) : bool :=
  match e with ETracebackPrintExc => true | _ => false end.

(** The same surroundings with another outcome of the load. *)
Definition with_load (env : Env) (outcome : LoadOutcome) : Env :=
  {| mayaState := mayaState env;
     topLevelWidgets := topLevelWidgets env;
     sceneName := sceneName env;
     load := outcome |}.

End Command.

Arguments LoadReturns {_} _.
Arguments LoadRaisesPersistentDataclassError {_}.
Arguments LoadRaises {_} _.
Arguments mkEnv {_} _ _ _ _.
Arguments mayaState {_} _.
Arguments topLevelWidgets {_} _.
Arguments sceneName {_} _.
Arguments load {_} _.
Arguments with_load {_} _ _.
Arguments ELoggerInfo {_} _.
Arguments EConfirmDialog {_} _ _ _ _.
Arguments ELoadSettings {_}.
Arguments ETracebackPrintExc {_}.
Arguments ESetResult {_} _.
Arguments EShowSubmitter {_} _ _.
Arguments EGuiErrorHandler {_} _ _ _.
Arguments is_load {_} _.
Arguments is_setResult {_} _.
Arguments is_show {_} _.
Arguments is_dialog {_} _.
Arguments is_traceback {_} _.
Arguments doIt {_ _} _ _ _ _ _ _.

(** *** Sample inputs *)

Definition maya_window : Widget := mkWidget "MayaWindow" 1.
Definition script_editor : Widget := mkWidget "scriptEditorPanel1Window" 2.

(** Settings as a list of name/value pairs, serialized by concatenation. *)
Definition sample_dumps (settings : list (string * string)) : string :=
  foldr (λ kv acc, fst kv +:+ "=" +:+ snd kv +:+ ";" +:+ acc) "" settings.

Definition sample_handler : string → Widget → exn → option exn := λ _ _ _, None.

Definition sample_defaults : list (string * string) := [("frames", "1-10")].

Definition sample_apply (ui saved : list (string * string)) : list (string * string) :=
  saved ++ ui.

(** The command on the sample settings. *)
Definition sample_doIt (env : Env (list (string * string)))
    : list (event (list (string * string))) * (exn + unit) :=
  doIt sample_defaults sample_apply (λ _, true) sample_dumps sample_handler env.

(** An interactive session on a scene that was never saved. *)
Definition unsaved_env : Env (list (string * string)) :=
  mkEnv kInteractive [script_editor; maya_window] "" (LoadReturns None).

(** An interactive session on a saved scene whose settings do not load. *)
Definition failing_load_env : Env (list (string * string)) :=
  mkEnv kInteractive [script_editor; maya_window] "/projects/shot.ma"
    LoadRaisesPersistentDataclassError.

(** Statement: in UI mode, on a scene without a file name, the command
    shows the dialog and returns. *)
Definition unsaved_scene_always_handled {Settings UISettings : Type}
    (command : Env Settings → list (event UISettings) * (exn + unit)) : Prop :=
  ∀ env : Env Settings,
    mayaState env ∈ [kInteractive; kBaseUIMode] →
    sceneName env = "" →
    snd (command env) = inr tt ∧
    Exists (λ e, is_dialog e = true) (fst (command env)).

(** A session in UI mode, on a scene that was never saved, in which no
    widget is the Maya main window. *)
Definition windowless_unsaved_env : Env (list (string * string)) :=
  mkEnv kBaseUIMode [script_editor] "" (LoadReturns None).

(** A session in UI mode in which no widget is the Maya main window. *)
Definition windowless_env : Env (list (string * string)) :=
  mkEnv kBaseUIMode [script_editor] "/projects/shot.ma" (LoadReturns None).

(** An interactive session on a saved scene with saved settings. *)
Definition saved_settings_env : Env (list (string * string)) :=
  mkEnv kInteractive [script_editor; maya_window] "/projects/shot.ma"
    (LoadReturns (Some [("priority", "50")])).

(** An interactive session in which the load fails in another way. *)
Definition broken_load_env : Env (list (string * string)) :=
  mkEnv kInteractive [script_editor; maya_window] "/projects/shot.ma"
    (LoadRaises (OtherError "PermissionError")).

End Submitter.

(** * Properties of the Arnold handler *)

Module ArnoldProofs.

Import Arnold.

Lemma bind_run {A B : Type} (m : M A) (k : A → M B) (s : State) :
  (m ≫= k) s =
  match m s with
  | (s', inr a) => k a s'
  | (s', inl e) => (s', inl e)
  end.
Proof. reflexivity. Qed.

(** Run the primitive steps at the head of a method body. *)
Ltac run :=
  unfold mbind, M_bind, mret, M_ret, kwargs, set_kwarg, cmds_getAttr,
    cmds_setAttr, print, cmds_arnoldRender, lift, raise, subscript;
  cbn [fst snd render_kwargs].

Lemma getAttr_setAttr_eq name v w : getAttr (setAttr name v w) name = v.
Proof. unfold getAttr, setAttr; simpl. by rewrite String.eqb_refl. Qed.

Lemma getAttr_setAttr_ne name name' v w :
  name' ≠ name → getAttr (setAttr name v w) name' = getAttr w name'.
Proof.
  intros Hne. unfold getAttr, setAttr; simpl.
  destruct (String.eqb_spec name' name); [done|reflexivity].
Qed.

Lemma getAttr_emit e w name : getAttr (emit e w) name = getAttr w name.
Proof. reflexivity. Qed.

Lemma quiet_print line : quiet [EPrint line].
Proof. by repeat constructor. Qed.

Lemma quiet_nil : quiet [].
Proof. constructor. Qed.

Lemma quiet_app evs evs' : quiet evs → quiet evs' → quiet (evs ++ evs').
Proof. apply Forall_app_2. Qed.

(** *** [default_resolution] *)

Lemma default_resolution_run key attribute h w :
  default_resolution key attribute (h, w) =
  match render_kwargs h !! key with
  | None =>
      ((mkHandler (<[key := getAttr w attribute]> (render_kwargs h)),
        emit (EPrint ("No " +:+ key +:+ " was specified, defaulting to "
                      +:+ str (getAttr w attribute))) w),
       inr tt)
  | Some _ => ((h, w), inr tt)
  end.
Proof.
  unfold default_resolution. run.
  destruct (render_kwargs h !! key) eqn:Hk; [reflexivity|].
  run. rewrite lookup_insert_eq. reflexivity.
Qed.


(** *** [tile_setup] *)

Lemma isinstance_int_of v : isinstance_int v = true → ∃ z, int_of v = Some z.
Proof. destruct v; simpl; try discriminate; eauto. Qed.

Lemma int_of_isinstance v z : int_of v = Some z → isinstance_int v = true.
Proof. by destruct v. Qed.

Lemma tile_setup_not_int data numXTiles numYTiles s :
  isinstance_int numXTiles = false ∨ isinstance_int numYTiles = false ∨
  isinstance_int (get data "tileNumX") = false ∨
  isinstance_int (get data "tileNumY") = false →
  ∃ msg, tile_setup data numXTiles numYTiles s = (s, inl (RuntimeError msg)).
Proof.
  intros Hbad. unfold tile_setup.
  destruct (negb (isinstance_int numXTiles) || negb (isinstance_int numYTiles)) eqn:Hn;
    [eexists; reflexivity|].
  destruct (negb (isinstance_int (get data "tileNumX"))
            || negb (isinstance_int (get data "tileNumY"))) eqn:Ht;
    [eexists; reflexivity|].
  apply orb_false_elim in Hn as [Hx Hy], Ht as [Htx Hty].
  apply negb_false_iff in Hx, Hy, Htx, Hty.
  destruct Hbad as [?|[?|[?|?]]]; congruence.
Qed.

Lemma div_eucl_div_mod a b : Z.div_eucl a b = (a / b, a mod b).
Proof. unfold Z.div, Z.modulo. by destruct (Z.div_eucl a b). Qed.

Lemma tile_bounds_region W H Nx Ny tx ty :
  tile_bounds W H Nx Ny tx ty =
  tile_region (W / Nx) (W mod Nx) (H / Ny) (H mod Ny) Nx Ny tx ty.
Proof. unfold tile_bounds. by rewrite !div_eucl_div_mod. Qed.

(** What a tile setup that returns has done. *)
Lemma tile_setup_returns data numXTiles numYTiles h w s' :
  tile_setup data numXTiles numYTiles (h, w) = (s', inr tt) →
  ∃ width height W H Nx Ny tx ty minX maxX minY maxY,
    render_kwargs h !! "width" = Some width ∧ int_of width = Some W ∧
    render_kwargs h !! "height" = Some height ∧ int_of height = Some H ∧
    int_of numXTiles = Some Nx ∧ int_of numYTiles = Some Ny ∧
    int_of (get data "tileNumX") = Some tx ∧
    int_of (get data "tileNumY") = Some ty ∧
    Nx ≠ 0 ∧ Ny ≠ 0 ∧
    tile_bounds W H Nx Ny tx ty = (minX, maxX, minY, maxY) ∧
    let named := tile_prefix (get data "tileNumY") (get data "tileNumX")
                   numYTiles numXTiles (get data "output_file_prefix") in
    s' = (h,
          emit (EPrint ("Output file name: " +:+ named))
            (setAttr "defaultRenderGlobals.imageFilePrefix" (VStr named)
            (emit (EPrint ("minX=" +:+ pretty minX +:+ ", maxX=" +:+ pretty maxX +:+
                           ", minY=" +:+ pretty minY +:+ ", maxY=" +:+ pretty maxY))
            (setAttr "defaultArnoldRenderOptions.regionMaxY" (VInt maxY)
            (setAttr "defaultArnoldRenderOptions.regionMinY" (VInt minY)
            (setAttr "defaultArnoldRenderOptions.regionMaxX" (VInt maxX)
            (setAttr "defaultArnoldRenderOptions.regionMinX" (VInt minX) w))))))).
Proof.
  unfold tile_setup.
  destruct (negb (isinstance_int numXTiles) || negb (isinstance_int numYTiles));
    [discriminate|].
  destruct (negb (isinstance_int (get data "tileNumX"))
            || negb (isinstance_int (get data "tileNumY"))); [discriminate|].
  run.
  destruct (render_kwargs h !! "width") as [width|] eqn:Hw; [|discriminate].
  unfold divmod.
  destruct (int_of width) as [W|] eqn:HW; [|discriminate].
  destruct (int_of numXTiles) as [Nx|] eqn:HNx; [|discriminate].
  destruct (Z.eqb_spec Nx 0); [discriminate|].
  destruct (render_kwargs h !! "height") as [height|] eqn:Hh; [|discriminate].
  destruct (int_of height) as [H|] eqn:HH; [|discriminate].
  destruct (int_of numYTiles) as [Ny|] eqn:HNy; [|discriminate].
  destruct (Z.eqb_spec Ny 0); [discriminate|].
  unfold as_int. rewrite HNx, HNy. run.
  destruct (int_of (get data "tileNumX")) as [tx|] eqn:Htx; [|discriminate].
  destruct (int_of (get data "tileNumY")) as [ty|] eqn:Hty; [|discriminate].
  run. rewrite !div_eucl_div_mod. cbn [fst snd].
  destruct (tile_region _ _ _ _ _ _ _ _) as [[[minX maxX] minY] maxY] eqn:Hr.
  run. intros [= <-].
  exists width, height, W, H, Nx, Ny, tx, ty, minX, maxX, minY, maxY.
  rewrite tile_bounds_region, Hr.
  repeat (split; [done|]). reflexivity.
Qed.


(** Steps that leave [self] alone. *)

Create HintDb keeps.

Lemma keeps_bind {A B : Type} (m : M A) (k : A → M B) :
  keeps_handler m → (∀ a, keeps_handler (k a)) → keeps_handler (m ≫= k).
Proof.
  intros Hm Hk s. rewrite bind_run. specialize (Hm s).
  destruct (m s) as [s' [e|a]]; [exact Hm|].
  rewrite Hk. exact Hm.
Qed.

Lemma keeps_ret {A : Type} (a : A) : keeps_handler (mret a).
Proof. by intros s. Qed.

Lemma keeps_raise {A : Type} e : keeps_handler (raise (A:=A) e).
Proof. by intros s. Qed.

Lemma keeps_lift {A : Type} (r : exn + A) : keeps_handler (lift r).
Proof. by intros s. Qed.

Lemma keeps_kwargs : keeps_handler kwargs.
Proof. by intros s. Qed.

Lemma keeps_getAttr name : keeps_handler (cmds_getAttr name).
Proof. by intros s. Qed.

Lemma keeps_setAttr name v : keeps_handler (cmds_setAttr name v).
Proof. by intros s. Qed.

Lemma keeps_print line : keeps_handler (print line).
Proof. by intros s. Qed.

Lemma keeps_arnoldRender kw : keeps_handler (cmds_arnoldRender kw).
Proof. by intros s. Qed.

Lemma keeps_as_int v : keeps_handler (as_int v).
Proof. unfold as_int. destruct (int_of v); [apply keeps_ret|apply keeps_raise]. Qed.

#[local] Hint Resolve keeps_ret keeps_raise keeps_lift keeps_kwargs keeps_getAttr
  keeps_setAttr keeps_print keeps_arnoldRender keeps_as_int : keeps.

Ltac keeps :=
  repeat first
    [ solve [auto with keeps]
    | apply keeps_bind; [|intros ?]
    | match goal with
      | |- keeps_handler (if ?b then _ else _) => destruct b
      | |- keeps_handler (let '(_, _) := ?p in _) => destruct p
      end ].

Lemma tile_setup_keeps data numXTiles numYTiles :
  keeps_handler (tile_setup data numXTiles numYTiles).
Proof. unfold tile_setup. keeps. Qed.

Lemma configure_tiles_keeps data : keeps_handler (configure_tiles data).
Proof.
  unfold configure_tiles. cbn zeta.
  destruct (_ && _); [apply tile_setup_keeps|apply keeps_ret].
Qed.

(** *** [finish_render] *)

Lemma finish_render_keeps frame : keeps_handler (finish_render frame).
Proof. unfold finish_render. keeps. Qed.

Lemma finish_render_run frame h w :
  finish_render frame (h, w) =
  let w1 := setAttr "defaultArnoldRenderOptions.renderType" (VInt 0) w in
  match int_of (getAttr w "defaultArnoldRenderOptions.log_verbosity") with
  | None => ((h, w1), inl TypeError)
  | Some z =>
      let w2 := if z <? 2
                then setAttr "defaultArnoldRenderOptions.log_verbosity" (VInt 2) w1
                else w1 in
      ((h, emit (EPrint ("MayaClient: Finished Rendering Frame " +:+ str frame +:+ newline))
             (emit (EArnoldRender (render_kwargs h)) w2)),
       inr tt)
  end.
Proof.
  unfold finish_render. run. unfold lt_int.
  change (getAttr (setAttr "defaultArnoldRenderOptions.renderType" (VInt 0) w)
            "defaultArnoldRenderOptions.log_verbosity")
    with (getAttr w "defaultArnoldRenderOptions.log_verbosity").
  destruct (int_of _) as [z|]; [|reflexivity].
  destruct (z <? 2); reflexivity.
Qed.

(** *** Tile arithmetic *)

Lemma tile_bounds_axes W H Nx Ny tx ty :
  tile_bounds W H Nx Ny tx ty =
  (axis_min (W / Nx) tx, axis_max (W / Nx) (W mod Nx) Nx tx,
   axis_min (H / Ny) ty, axis_max (H / Ny) (H mod Ny) Ny ty).
Proof. by rewrite tile_bounds_region. Qed.

Section Axis.
Variables size n : Z.
Hypothesis size_nonneg : 0 ≤ size.
Hypothesis n_pos : 1 ≤ n.

Let delta := size / n.
Let remainder := size mod n.

Lemma axis_division : 0 ≤ delta ∧ 0 ≤ remainder < n ∧ size = n * delta + remainder.
Proof.
  subst delta remainder. split; [apply Z.div_pos; lia|].
  split; [apply Z.mod_pos_bound; lia|]. apply Z.div_mod; lia.
Qed.

(** Every pixel of the axis is in some tile. *)
Lemma axis_cover x :
  0 ≤ x < size → ∃ t, 1 ≤ t ≤ n ∧ axis_min delta t ≤ x ≤ axis_max delta remainder n t.
Proof.
  intros Hx. destruct axis_division as (Hd & Hr & Hs).
  destruct (Z_lt_le_dec x (delta * (n - 1))) as [Hlt|Hge].
  - assert (0 < delta) by nia.
    exists (x / delta + 1).
    pose proof (Z.div_mod x delta ltac:(lia)) as Hq.
    pose proof (Z.mod_pos_bound x delta ltac:(lia)) as Hm.
    assert (0 ≤ x / delta) by (apply Z.div_pos; lia).
    assert (x / delta < n - 1) by nia.
    unfold axis_min, axis_max. destruct (Z.eqb_spec (x / delta + 1) n); [lia|].
    split; [lia|]. nia.
  - exists n. unfold axis_min, axis_max. rewrite Z.eqb_refl. split; [lia|]. nia.
Qed.

(** Two tiles that hold the same pixel are the same tile. *)
Lemma axis_disjoint x t t' :
  1 ≤ t ≤ n → 1 ≤ t' ≤ n →
  axis_min delta t ≤ x ≤ axis_max delta remainder n t →
  axis_min delta t' ≤ x ≤ axis_max delta remainder n t' →
  t' = t.
Proof.
  intros Ht Ht' Hin Hin'. destruct axis_division as (Hd & Hr & Hs).
  unfold axis_min, axis_max in *.
  destruct (Z.eqb_spec t n), (Z.eqb_spec t' n); try lia.
  - destruct (Z_lt_le_dec t' t); [|lia]. nia.
  - destruct (Z_lt_le_dec t t'); [|lia]. nia.
  - destruct (Z.lt_trichotomy t t') as [?|[?|?]]; [nia|lia|nia].
Qed.

(** A tile holds pixels of the axis only. *)
Lemma axis_within x t :
  1 ≤ t ≤ n → axis_min delta t ≤ x ≤ axis_max delta remainder n t → 0 ≤ x < size.
Proof.
  intros Ht Hin. destruct axis_division as (Hd & Hr & Hs).
  unfold axis_min, axis_max in *. destruct (Z.eqb_spec t n); nia.
Qed.

(** Only the last tile is longer than [delta]. *)
Lemma axis_length t :
  axis_max delta remainder n t - axis_min delta t + 1
  = delta + (if t =? n then remainder else 0).
Proof. unfold axis_min, axis_max. destruct (t =? n); lia. Qed.

End Axis.

(** C1. For a [W] x [H] image ([W], [H] >= 0) cut into [Nx] x [Ny] tiles
    ([Nx], [Ny] >= 1), the bounds that [start_render] computes for the
    tiles [(tx, ty)] of [[1, Nx]] x [[1, Ny]] partition the pixels
    [[0, W)] x [[0, H)]: every pixel lies in the region of one tile and of
    no other, no region holds a point outside the image, and every column
    is [W div Nx] wide and every row [H div Ny] high except the last ones,
    which take the remainders as well. *)
Theorem tile_bounds_partition (W H Nx Ny : Z) :
  0 ≤ W → 0 ≤ H → 1 ≤ Nx → 1 ≤ Ny →
  (∀ x y, 0 ≤ x < W → 0 ≤ y < H →
     ∃ tx ty,
       (1 ≤ tx ≤ Nx ∧ 1 ≤ ty ≤ Ny ∧ in_tile (tile_bounds W H Nx Ny tx ty) x y) ∧
       ∀ tx' ty', 1 ≤ tx' ≤ Nx → 1 ≤ ty' ≤ Ny →
         in_tile (tile_bounds W H Nx Ny tx' ty') x y → tx' = tx ∧ ty' = ty) ∧
  (∀ tx ty x y, 1 ≤ tx ≤ Nx → 1 ≤ ty ≤ Ny →
     in_tile (tile_bounds W H Nx Ny tx ty) x y → 0 ≤ x < W ∧ 0 ≤ y < H) ∧
  (∀ tx ty, 1 ≤ tx ≤ Nx → 1 ≤ ty ≤ Ny →
     let '(minX, maxX, minY, maxY) := tile_bounds W H Nx Ny tx ty in
     minX = (W / Nx) * (tx - 1) ∧ minY = (H / Ny) * (ty - 1) ∧
     maxX - minX + 1 = W / Nx + (if tx =? Nx then W mod Nx else 0) ∧
     maxY - minY + 1 = H / Ny + (if ty =? Ny then H mod Ny else 0)).
Proof.
  intros HW HH HNx HNy. split; [|split].
  - intros x y Hx Hy.
    destruct (axis_cover W Nx HW HNx x Hx) as (tx & Htx & Hinx).
    destruct (axis_cover H Ny HH HNy y Hy) as (ty & Hty & Hiny).
    exists tx, ty. split.
    + rewrite tile_bounds_axes. unfold in_tile. auto.
    + intros tx' ty' Htx' Hty'. rewrite tile_bounds_axes. unfold in_tile.
      intros [Hinx' Hiny']. split.
      * exact (axis_disjoint W Nx HW HNx x tx tx' Htx Htx' Hinx Hinx').
      * exact (axis_disjoint H Ny HH HNy y ty ty' Hty Hty' Hiny Hiny').
  - intros tx ty x y Htx Hty. rewrite tile_bounds_axes. unfold in_tile.
    intros [Hinx Hiny]. split.
    + exact (axis_within W Nx HW HNx x tx Htx Hinx).
    + exact (axis_within H Ny HH HNy y ty Hty Hiny).
  - intros tx ty _ _. rewrite tile_bounds_axes.
    split; [reflexivity|]. split; [reflexivity|].
    split; apply axis_length.
Qed.

Lemma tile_bounds_partition_witness :
  (∀ x y, 0 ≤ x < 5 → 0 ≤ y < 3 →
     ∃ tx ty,
       (1 ≤ tx ≤ 2 ∧ 1 ≤ ty ≤ 2 ∧ in_tile (tile_bounds 5 3 2 2 tx ty) x y) ∧
       ∀ tx' ty', 1 ≤ tx' ≤ 2 → 1 ≤ ty' ≤ 2 →
         in_tile (tile_bounds 5 3 2 2 tx' ty') x y → tx' = tx ∧ ty' = ty) ∧
  (∀ tx ty x y, 1 ≤ tx ≤ 2 → 1 ≤ ty ≤ 2 →
     in_tile (tile_bounds 5 3 2 2 tx ty) x y → 0 ≤ x < 5 ∧ 0 ≤ y < 3) ∧
  (∀ tx ty, 1 ≤ tx ≤ 2 → 1 ≤ ty ≤ 2 →
     let '(minX, maxX, minY, maxY) := tile_bounds 5 3 2 2 tx ty in
     minX = (5 / 2) * (tx - 1) ∧ minY = (3 / 2) * (ty - 1) ∧
     maxX - minX + 1 = 5 / 2 + (if tx =? 2 then 5 mod 2 else 0) ∧
     maxY - minY + 1 = 3 / 2 + (if ty =? 2 then 3 mod 2 else 0)).
Proof. apply (tile_bounds_partition 5 3 2 2); lia. Defined.

(** *** [start_render] *)

Section Run.
Variable get_camera_to_render : State → gmap string pyval → string + pyval.

Lemma default_resolution_returns key attribute s :
  outcome (default_resolution key attribute s) = inr tt.
Proof.
  destruct s as [h w]. rewrite default_resolution_run.
  by destruct (render_kwargs h !! key).
Qed.

Lemma default_resolution_kwargs key attribute s k :
  render_kwargs (fst (fst (default_resolution key attribute s))) !! k =
  match render_kwargs (fst s) !! k with
  | Some v => Some v
  | None => if decide (k = key) then Some (getAttr (snd s) attribute) else None
  end.
Proof.
  destruct s as [h w]. rewrite default_resolution_run. cbn [fst snd].
  destruct (render_kwargs h !! key) eqn:Hkey; cbn [fst render_kwargs].
  - destruct (render_kwargs h !! k) eqn:Hk; [done|].
    case_decide; [congruence|done].
  - rewrite lookup_insert. case_decide as Hd.
    + subst k. rewrite Hkey. by rewrite decide_True.
    + destruct (render_kwargs h !! k); [done|]. by rewrite decide_False.
Qed.

Lemma default_resolution_attr key attribute s :
  attr (scene_after (default_resolution key attribute s)) = attr (snd s).
Proof.
  destruct s as [h w]. rewrite default_resolution_run.
  by destruct (render_kwargs h !! key).
Qed.

Lemma default_resolution_log key attribute s :
  ∃ events, log (scene_after (default_resolution key attribute s)) = log (snd s) ++ events
            ∧ quiet events.
Proof.
  destruct s as [h w]. rewrite default_resolution_run.
  destruct (render_kwargs h !! key).
  - exists []. split; [by rewrite app_nil_r|apply quiet_nil].
  - eexists. split; [reflexivity|apply quiet_print].
Qed.

(** The run of [start_render], block by block. *)
Lemma start_render_run data h w :
  start_render get_camera_to_render data (h, w) =
  let frame := get data "frame" in
  if is_none frame then
    ((h, w), inl (RuntimeError "MayaClient: start_render called without a frame number."))
  else
    let s1 := (mkHandler (<["seq" := frame]> (render_kwargs h)), w) in
    match get_camera_to_render s1 data with
    | inl msg => (s1, inl (RuntimeError msg))
    | inr camera =>
        let s2 := (mkHandler (<["camera" := camera]> (<["seq" := frame]> (render_kwargs h))), w) in
        let s3 := fst (default_resolution "width" "defaultResolution.width" s2) in
        let s4 := fst (default_resolution "height" "defaultResolution.height" s3) in
        match configure_tiles data s4 with
        | (s5, inr _) => finish_render frame s5
        | (s5, inl e) => (s5, inl e)
        end
    end.
Proof.
  unfold start_render. cbn zeta.
  destruct (is_none (get data "frame")); [reflexivity|].
  rewrite bind_run. unfold set_kwarg at 1. cbn [fst snd].
  rewrite bind_run. unfold camera_to_render at 1.
  destruct (get_camera_to_render _ data) as [msg|camera]; [reflexivity|].
  rewrite bind_run. unfold set_kwarg at 1. cbn [fst snd render_kwargs].
  rewrite bind_run.
  pose proof (default_resolution_returns "width" "defaultResolution.width"
    (mkHandler (<["camera" := camera]> (<["seq" := get data "frame"]> (render_kwargs h))), w)) as H1.
  unfold outcome in H1.
  destruct (default_resolution "width" _ _) as [s3 r3]. cbn [fst snd] in *. subst r3.
  rewrite bind_run.
  pose proof (default_resolution_returns "height" "defaultResolution.height" s3) as H2.
  unfold outcome in H2.
  destruct (default_resolution "height" _ _) as [s4 r4]. cbn [fst snd] in *. subst r4.
  rewrite bind_run. reflexivity.
Qed.


Lemma start_render_handler data h w :
  handler_after (start_render get_camera_to_render data (h, w)) =
  let frame := get data "frame" in
  if is_none frame then h
  else
    let s1 := (mkHandler (<["seq" := frame]> (render_kwargs h)), w) in
    match get_camera_to_render s1 data with
    | inl _ => fst s1
    | inr camera =>
        let s2 := (mkHandler (<["camera" := camera]> (<["seq" := frame]> (render_kwargs h))), w) in
        let s3 := fst (default_resolution "width" "defaultResolution.width" s2) in
        handler_after (default_resolution "height" "defaultResolution.height" s3)
    end.
Proof.
  rewrite start_render_run. cbn zeta.
  destruct (is_none (get data "frame")); [reflexivity|].
  destruct (get_camera_to_render _ data) as [msg|camera]; [reflexivity|].
  set (s4 := fst (default_resolution "height" _ _)).
  pose proof (configure_tiles_keeps data s4) as Ht. unfold handler_after in Ht |- *.
  destruct (configure_tiles data s4) as [s5 [e|[]]]; cbn [fst snd] in *; [exact Ht|].
  pose proof (finish_render_keeps (get data "frame") s5) as Hf.
  unfold handler_after in Hf. rewrite Hf. exact Ht.
Qed.

(** What a tile configuration that returns leaves of the scene it found. *)
Lemma configure_tiles_returns data s s' :
  configure_tiles data s = (s', inr tt) →
  fst s' = fst s ∧
  getAttr (snd s') "defaultArnoldRenderOptions.log_verbosity"
  = getAttr (snd s) "defaultArnoldRenderOptions.log_verbosity" ∧
  ∃ events, log (snd s') = log (snd s) ++ events.
Proof.
  unfold configure_tiles. cbn zeta. destruct s as [h w].
  destruct (_ && _).
  - intros Hrun. apply tile_setup_returns in Hrun
      as (?&?&?&?&?&?&?&?&minX&maxX&minY&maxY&_&_&_&_&_&_&_&_&_&_&_&->).
    split; [reflexivity|]. split; [reflexivity|].
    cbn [snd log emit setAttr]. rewrite <- !app_assoc. eauto.
  - intros [= <-]. split; [done|]. split; [done|].
    exists []. by rewrite app_nil_r.
Qed.

(** What a call that returns has gone through. *)
Lemma start_render_returns data h w h' w' :
  start_render get_camera_to_render data (h, w) = ((h', w'), inr tt) →
  ∃ camera s5 z,
    let frame := get data "frame" in
    let s1 := (mkHandler (<["seq" := frame]> (render_kwargs h)), w) in
    let s2 := (mkHandler (<["camera" := camera]> (<["seq" := frame]> (render_kwargs h))), w) in
    let s3 := fst (default_resolution "width" "defaultResolution.width" s2) in
    let s4 := fst (default_resolution "height" "defaultResolution.height" s3) in
    frame ≠ VNone ∧
    get_camera_to_render s1 data = inr camera ∧
    configure_tiles data s4 = (s5, inr tt) ∧
    int_of (getAttr (snd s5) "defaultArnoldRenderOptions.log_verbosity") = Some z ∧
    h' = fst s5 ∧
    w' = emit (EPrint ("MayaClient: Finished Rendering Frame " +:+ str frame +:+ newline))
           (emit (EArnoldRender (render_kwargs (fst s5)))
              (if z <? 2
               then setAttr "defaultArnoldRenderOptions.log_verbosity" (VInt 2)
                      (setAttr "defaultArnoldRenderOptions.renderType" (VInt 0) (snd s5))
               else setAttr "defaultArnoldRenderOptions.renderType" (VInt 0) (snd s5))).
Proof.
  rewrite start_render_run. cbn zeta.
  destruct (is_none (get data "frame")) eqn:Hf; [discriminate|].
  destruct (get_camera_to_render _ data) as [msg|camera] eqn:Hc; [discriminate|].
  destruct (configure_tiles data _) as [[h5 w5] [e|[]]] eqn:Ht; [discriminate|].
  rewrite finish_render_run. cbn zeta.
  destruct (int_of (getAttr w5 _)) as [z|] eqn:Hz; [|discriminate].
  intros [= <- <-]. exists camera, (h5, w5), z. cbn zeta.
  split; [by intros Hn; rewrite Hn in Hf|].
  repeat (split; [done|]). done.
Qed.


Lemma is_none_false v : v ≠ VNone → is_none v = false.
Proof. by destruct v. Qed.

Lemma start_render_log data h w h' w' :
  start_render get_camera_to_render data (h, w) = ((h', w'), inr tt) →
  ∃ events line,
    log w' = log w ++ events ++ [EArnoldRender (render_kwargs h'); EPrint line].
Proof.
  intros Hrun. apply start_render_returns in Hrun
    as (camera & s5 & z & _ & _ & Ht & _ & -> & ->).
  apply configure_tiles_returns in Ht as (_ & _ & evt & Hlog5).
  destruct (default_resolution_log "height" "defaultResolution.height"
    (fst (default_resolution "width" "defaultResolution.width"
       (mkHandler (<["camera" := camera]> (<["seq" := get data "frame"]> (render_kwargs h))), w))))
    as (evh & Hlog4 & _).
  destruct (default_resolution_log "width" "defaultResolution.width"
    (mkHandler (<["camera" := camera]> (<["seq" := get data "frame"]> (render_kwargs h))), w))
    as (evw & Hlog3 & _).
  unfold scene_after in Hlog3, Hlog4. cbn [snd] in Hlog3.
  rewrite Hlog4, Hlog3 in Hlog5.
  exists (evw ++ evh ++ evt ++
          ESetAttr "defaultArnoldRenderOptions.renderType" (VInt 0) ::
          (if z <? 2
           then [ESetAttr "defaultArnoldRenderOptions.log_verbosity" (VInt 2)]
           else [])).
  eexists.
  destruct (z <? 2); cbn [log emit setAttr]; rewrite Hlog5;
    rewrite <- !app_assoc; reflexivity.
Qed.

(** C2. Without a ["frame"] (absent, or [None]) [start_render] raises the
    [RuntimeError] of line 31 and leaves the handler and the scene as
    they were: no attribute is set and the renderer is not invoked. *)
Theorem start_render_without_frame (data : gmap string pyval) (s : State) :
  data !! "frame" = None ∨ data !! "frame" = Some VNone →
  start_render get_camera_to_render data s =
  (s, inl (RuntimeError "MayaClient: start_render called without a frame number.")).
Proof.
  intros Hf. destruct s as [h w]. rewrite start_render_run. cbn zeta.
  assert (get data "frame" = VNone) as ->
    by (unfold get; destruct Hf as [-> | ->]; reflexivity).
  reflexivity.
Qed.

(** C3. With ["numXTiles"] and ["numYTiles"] present and not [None], and
    one of [numXTiles], [numYTiles], [tileNumX], [tileNumY] not an [int],
    [start_render] raises a [RuntimeError]; up to that point the scene's
    attributes are untouched and nothing but prints has been logged. *)
Theorem start_render_non_integer_tiles (data : gmap string pyval) (h : Handler) (w : Host) :
  get data "numXTiles" ≠ VNone →
  get data "numYTiles" ≠ VNone →
  isinstance_int (get data "numXTiles") = false ∨
  isinstance_int (get data "numYTiles") = false ∨
  isinstance_int (get data "tileNumX") = false ∨
  isinstance_int (get data "tileNumY") = false →
  let run := start_render get_camera_to_render data (h, w) in
  (∃ msg, outcome run = inl (RuntimeError msg)) ∧
  attr (scene_after run) = attr w ∧
  ∃ events, log (scene_after run) = log w ++ events ∧ quiet events.
Proof.
  intros Hx Hy Hbad. cbn zeta. rewrite start_render_run. cbn zeta.
  destruct (is_none (get data "frame")).
  { split; [by eexists|]. split; [done|].
    exists []. split; [by rewrite app_nil_r|apply quiet_nil]. }
  destruct (get_camera_to_render _ data) as [msg|camera].
  { split; [by eexists|]. split; [done|].
    exists []. split; [by rewrite app_nil_r|apply quiet_nil]. }
  set (s2 := (mkHandler _, w)).
  set (s3 := fst (default_resolution "width" _ s2)).
  set (s4 := fst (default_resolution "height" _ s3)).
  unfold configure_tiles. cbn zeta.
  rewrite (is_none_false _ Hx), (is_none_false _ Hy). cbn [negb andb].
  destruct (tile_setup_not_int data _ _ s4 Hbad) as [msg ->].
  unfold outcome, scene_after. cbn [fst snd].
  split; [by eexists|].
  pose proof (default_resolution_attr "width" "defaultResolution.width" s2) as Ha3.
  pose proof (default_resolution_attr "height" "defaultResolution.height" s3) as Ha4.
  destruct (default_resolution_log "width" "defaultResolution.width" s2) as (e3 & Hl3 & Hq3).
  destruct (default_resolution_log "height" "defaultResolution.height" s3) as (e4 & Hl4 & Hq4).
  unfold scene_after in *. fold s3 in Ha3, Hl3, Ha4, Hl4. fold s4 in Ha4, Hl4.
  split; [by rewrite Ha4, Ha3|].
  exists (e3 ++ e4). split; [|by apply quiet_app].
  rewrite Hl4, Hl3. by rewrite app_assoc.
Qed.

(** C4, amended. When the call has a frame and the camera lookup
    succeeds, a ["width"] (["height"]) that is missing from
    [render_kwargs] is set to the scene's [defaultResolution.width]
    ([defaultResolution.height]), whether or not the call raises later;
    and a call that returns has handed exactly that mapping to
    [arnoldRender], as the last thing before its closing print. *)
Theorem start_render_defaults_resolution
    (data : gmap string pyval) (h : Handler) (w : Host) (camera : pyval) :
  get data "frame" ≠ VNone →
  get_camera_to_render
    (mkHandler (<["seq" := get data "frame"]> (render_kwargs h)), w) data = inr camera →
  let run := start_render get_camera_to_render data (h, w) in
  (render_kwargs h !! "width" = None →
   render_kwargs (handler_after run) !! "width"
   = Some (getAttr w "defaultResolution.width")) ∧
  (render_kwargs h !! "height" = None →
   render_kwargs (handler_after run) !! "height"
   = Some (getAttr w "defaultResolution.height")) ∧
  (outcome run = inr tt →
   ∃ events line,
     log (scene_after run)
     = log w ++ events ++ [EArnoldRender (render_kwargs (handler_after run)); EPrint line]).
Proof.
  intros Hf Hc. cbn zeta. split; [|split].
  - intros Hw. rewrite start_render_handler. cbn zeta.
    rewrite (is_none_false _ Hf), Hc.
    unfold handler_after. rewrite !default_resolution_kwargs.
    cbn [fst snd render_kwargs].
    rewrite !lookup_insert_ne by done. rewrite Hw.
    rewrite decide_True by done. reflexivity.
  - intros Hh. rewrite start_render_handler. cbn zeta.
    rewrite (is_none_false _ Hf), Hc.
    unfold handler_after. rewrite !default_resolution_kwargs.
    cbn [fst snd render_kwargs].
    rewrite !lookup_insert_ne by done. rewrite Hh.
    rewrite decide_False by done. rewrite decide_True by done.
    unfold getAttr.
    pose proof (default_resolution_attr "width" "defaultResolution.width"
      (mkHandler (<["camera" := camera]> (<["seq" := get data "frame"]> (render_kwargs h))), w))
      as Ha.
    unfold scene_after in Ha. rewrite Ha. reflexivity.
  - destruct (start_render get_camera_to_render data (h, w)) as [[h' w'] [e|[]]] eqn:Hrun;
      unfold outcome, scene_after, handler_after; cbn [fst snd]; [discriminate|].
    intros _. exact (start_render_log _ _ _ _ _ Hrun).
Qed.


Lemma default_resolution_keeps key attribute s k v :
  render_kwargs (fst s) !! k = Some v →
  render_kwargs (fst (fst (default_resolution key attribute s))) !! k = Some v.
Proof. intros Hk. by rewrite default_resolution_kwargs, Hk. Qed.


(** A resolution that is in [render_kwargs] is the same after a call. *)
Lemma start_render_keeps_resolution data h w k v :
  k = "width" ∨ k = "height" →
  render_kwargs h !! k = Some v →
  render_kwargs (handler_after (start_render get_camera_to_render data (h, w))) !! k = Some v.
Proof.
  intros Hk Hv. rewrite start_render_handler. cbn zeta.
  destruct (is_none (get data "frame")); [exact Hv|].
  assert ("seq" ≠ k ∧ "camera" ≠ k) as [Hs Hc] by (destruct Hk as [-> | ->]; done).
  destruct (get_camera_to_render _ data) as [msg|camera]; cbn [fst render_kwargs].
  - by rewrite lookup_insert_ne.
  - unfold handler_after. do 2 apply default_resolution_keeps.
    cbn [fst render_kwargs]. by rewrite !lookup_insert_ne.
Qed.




(** The resolution defaults read the scene and print; they set nothing. *)
Lemma resolution_defaults_attr s :
  attr (snd (fst (default_resolution "height" "defaultResolution.height"
                    (fst (default_resolution "width" "defaultResolution.width" s)))))
  = attr (snd s).
Proof.
  pose proof (default_resolution_attr "height" "defaultResolution.height"
    (fst (default_resolution "width" "defaultResolution.width" s))) as Hh.
  pose proof (default_resolution_attr "width" "defaultResolution.width" s) as Hw.
  unfold scene_after in *. by rewrite Hh, Hw.
Qed.

Lemma resolution_defaults_log s :
  ∃ events,
    log (snd (fst (default_resolution "height" "defaultResolution.height"
                     (fst (default_resolution "width" "defaultResolution.width" s)))))
    = log (snd s) ++ events.
Proof.
  destruct (default_resolution_log "height" "defaultResolution.height"
    (fst (default_resolution "width" "defaultResolution.width" s))) as (eh & Hh & _).
  destruct (default_resolution_log "width" "defaultResolution.width" s) as (ew & Hw & _).
  unfold scene_after in *. exists (ew ++ eh). by rewrite Hh, Hw, app_assoc.
Qed.

(** X1. A tile rendering call that returns has set the four
    [defaultArnoldRenderOptions.region*] attributes to [tile_bounds] of
    the resolution in [render_kwargs] and the tile counts and indices of
    the run-data. *)
Lemma start_render_tile_region data h w h' w' :
  start_render get_camera_to_render data (h, w) = ((h', w'), inr tt) →
  get data "numXTiles" ≠ VNone →
  get data "numYTiles" ≠ VNone →
  ∃ width height W H Nx Ny tx ty,
    render_kwargs h' !! "width" = Some width ∧ int_of width = Some W ∧
    render_kwargs h' !! "height" = Some height ∧ int_of height = Some H ∧
    int_of (get data "numXTiles") = Some Nx ∧ int_of (get data "numYTiles") = Some Ny ∧
    int_of (get data "tileNumX") = Some tx ∧ int_of (get data "tileNumY") = Some ty ∧
    let '(minX, maxX, minY, maxY) := tile_bounds W H Nx Ny tx ty in
    getAttr w' "defaultArnoldRenderOptions.regionMinX" = VInt minX ∧
    getAttr w' "defaultArnoldRenderOptions.regionMaxX" = VInt maxX ∧
    getAttr w' "defaultArnoldRenderOptions.regionMinY" = VInt minY ∧
    getAttr w' "defaultArnoldRenderOptions.regionMaxY" = VInt maxY.
Proof.
  intros Hrun Hx Hy. apply start_render_returns in Hrun
    as (camera & [h5 w5] & z & _ & _ & Ht & _ & -> & ->).
  unfold configure_tiles in Ht. cbn zeta in Ht.
  rewrite (is_none_false _ Hx), (is_none_false _ Hy) in Ht. cbn [negb andb] in Ht.
  destruct (fst (default_resolution "height" _ _)) as [h4 w4].
  apply tile_setup_returns in Ht
    as (width & height & W & H & Nx & Ny & tx & ty & minX & maxX & minY & maxY &
        Hw & HW & Hh & HH & HNx & HNy & Htx & Hty & _ & _ & Hb & Hs).
  cbn zeta in Hs. injection Hs as -> ->.
  exists width, height, W, H, Nx, Ny, tx, ty. rewrite Hb.
  repeat (split; [done|]).
  cbn [fst snd]. destruct (z <? 2); repeat split; reflexivity.
Qed.

(** What a tile setup with integer parameters and counts other than zero
    does. *)
Lemma tile_setup_runs data numXTiles numYTiles h w width height W H Nx Ny tx ty :
  render_kwargs h !! "width" = Some width → int_of width = Some W →
  render_kwargs h !! "height" = Some height → int_of height = Some H →
  int_of numXTiles = Some Nx → int_of numYTiles = Some Ny →
  int_of (get data "tileNumX") = Some tx → int_of (get data "tileNumY") = Some ty →
  Nx ≠ 0 → Ny ≠ 0 →
  ∃ w', tile_setup data numXTiles numYTiles (h, w) = ((h, w'), inr tt).
Proof.
  intros Hw HW Hh HH HNx HNy Htx Hty HNx0 HNy0. unfold tile_setup.
  rewrite (int_of_isinstance _ _ HNx), (int_of_isinstance _ _ HNy),
    (int_of_isinstance _ _ Htx), (int_of_isinstance _ _ Hty). cbn [negb orb].
  run. rewrite Hw. unfold divmod. rewrite HW, HNx.
  destruct (Z.eqb_spec Nx 0); [done|].
  run. rewrite Hh, HH, HNy.
  destruct (Z.eqb_spec Ny 0); [done|].
  unfold as_int. rewrite HNx, HNy, Htx, Hty. run.
  destruct (tile_region _ _ _ _ _ _ _ _) as [[[minX maxX] minY] maxY].
  run. eexists. reflexivity.
Qed.

(** The resolution in [render_kwargs] once the defaults are taken. *)
Lemma resolution_after_defaults h w frame camera :
  let s4 := fst (default_resolution "height" "defaultResolution.height"
              (fst (default_resolution "width" "defaultResolution.width"
                 (mkHandler (<["camera" := camera]> (<["seq" := frame]> (render_kwargs h))),
                  w)))) in
  render_kwargs (fst s4) !! "width"
  = Some (resolved "width" "defaultResolution.width" h w) ∧
  render_kwargs (fst s4) !! "height"
  = Some (resolved "height" "defaultResolution.height" h w).
Proof.
  cbn zeta. rewrite !default_resolution_kwargs. cbn [fst snd render_kwargs].
  rewrite !lookup_insert_ne by done. unfold resolved. split.
  - destruct (render_kwargs h !! "width"); [reflexivity|].
    by rewrite decide_True.
  - destruct (render_kwargs h !! "height"); [reflexivity|].
    rewrite decide_False by done. rewrite decide_True by done.
    pose proof (default_resolution_attr "width" "defaultResolution.width"
      (mkHandler (<["camera" := camera]> (<["seq" := frame]> (render_kwargs h))), w)) as Ha.
    unfold scene_after in Ha. unfold getAttr. by rewrite Ha.
Qed.

(** C9, amended. A call that has a frame, finds its camera, works with an
    integer width and height and is given integer tile counts other than
    zero and integer tile indices sets
    [defaultRenderGlobals.imageFilePrefix] to
    ["_tile_" + tileNumY + "x" + tileNumX + "_" + numYTiles + "x" +
    numXTiles + "_" + prefix], with the run-data's own (1-based) indices,
    the Y one first; the attribute holds that string when the call is
    over, whether the call returns or raises after line 96. *)
Theorem tile_prefix_set
    (data : gmap string pyval) (h : Handler) (w : Host) (camera : pyval)
    (W H Nx Ny tx ty : Z) :
  get data "frame" ≠ VNone →
  get_camera_to_render
    (mkHandler (<["seq" := get data "frame"]> (render_kwargs h)), w) data = inr camera →
  int_of (resolved "width" "defaultResolution.width" h w) = Some W →
  int_of (resolved "height" "defaultResolution.height" h w) = Some H →
  int_of (get data "numXTiles") = Some Nx →
  int_of (get data "numYTiles") = Some Ny →
  int_of (get data "tileNumX") = Some tx →
  int_of (get data "tileNumY") = Some ty →
  Nx ≠ 0 → Ny ≠ 0 →
  let run := start_render get_camera_to_render data (h, w) in
  let named :=
    "_tile_" +:+ str (get data "tileNumY") +:+ "x" +:+ str (get data "tileNumX") +:+
    "_" +:+ str (get data "numYTiles") +:+ "x" +:+ str (get data "numXTiles") +:+
    "_" +:+ str (get data "output_file_prefix") in
  getAttr (scene_after run) "defaultRenderGlobals.imageFilePrefix" = VStr named ∧
  ∃ before after,
    log (scene_after run)
    = log w ++ before ++
      ESetAttr "defaultRenderGlobals.imageFilePrefix" (VStr named) :: after.
Proof.
  intros Hf Hc HW HH HNx HNy Htx Hty HNx0 HNy0. cbn zeta.
  rewrite start_render_run. cbn zeta. rewrite (is_none_false _ Hf), Hc.
  destruct (resolution_after_defaults h w (get data "frame") camera) as [Hw4 Hh4].
  destruct (resolution_defaults_log
    (mkHandler (<["camera" := camera]> (<["seq" := get data "frame"]> (render_kwargs h))), w))
    as (ev & Hlog).
  cbn zeta in Hw4, Hh4.
  destruct (fst (default_resolution "height" _ _)) as [h4 w4].
  cbn [fst snd] in Hw4, Hh4, Hlog.
  unfold configure_tiles. cbn zeta.
  assert (is_none (get data "numXTiles") = false) as -> by (by destruct (get data "numXTiles")).
  assert (is_none (get data "numYTiles") = false) as -> by (by destruct (get data "numYTiles")).
  cbn [negb andb].
  destruct (tile_setup_runs data _ _ h4 w4 _ _ W H Nx Ny tx ty
              Hw4 HW Hh4 HH HNx HNy Htx Hty HNx0 HNy0) as [w5 Hrun].
  rewrite Hrun.
  apply tile_setup_returns in Hrun
    as (? & ? & ? & ? & ? & ? & ? & ? & minX & maxX & minY & maxY &
        _ & _ & _ & _ & _ & _ & _ & _ & _ & _ & _ & Hs).
  cbn zeta in Hs. injection Hs as ->.
  rewrite finish_render_run. cbn zeta.
  destruct (int_of (getAttr _ "defaultArnoldRenderOptions.log_verbosity")) as [z|];
    unfold scene_after; cbn [fst snd].
  - split; [destruct (z <? 2); reflexivity|].
    exists (ev ++ [ESetAttr "defaultArnoldRenderOptions.regionMinX" (VInt minX);
                   ESetAttr "defaultArnoldRenderOptions.regionMaxX" (VInt maxX);
                   ESetAttr "defaultArnoldRenderOptions.regionMinY" (VInt minY);
                   ESetAttr "defaultArnoldRenderOptions.regionMaxY" (VInt maxY);
                   EPrint ("minX=" +:+ pretty minX +:+ ", maxX=" +:+ pretty maxX +:+
                           ", minY=" +:+ pretty minY +:+ ", maxY=" +:+ pretty maxY)]).
    exists (EPrint ("Output file name: " +:+
                    tile_prefix (get data "tileNumY") (get data "tileNumX")
                      (get data "numYTiles") (get data "numXTiles")
                      (get data "output_file_prefix")) ::
            ESetAttr "defaultArnoldRenderOptions.renderType" (VInt 0) ::
            (if z <? 2
             then [ESetAttr "defaultArnoldRenderOptions.log_verbosity" (VInt 2)]
             else []) ++
            [EArnoldRender (render_kwargs h4);
             EPrint ("MayaClient: Finished Rendering Frame " +:+
                     str (get data "frame") +:+ newline)]).
    destruct (z <? 2); cbn [log emit setAttr]; rewrite Hlog;
      rewrite <- !app_assoc; reflexivity.
  - split; [reflexivity|].
    exists (ev ++ [ESetAttr "defaultArnoldRenderOptions.regionMinX" (VInt minX);
                   ESetAttr "defaultArnoldRenderOptions.regionMaxX" (VInt maxX);
                   ESetAttr "defaultArnoldRenderOptions.regionMinY" (VInt minY);
                   ESetAttr "defaultArnoldRenderOptions.regionMaxY" (VInt maxY);
                   EPrint ("minX=" +:+ pretty minX +:+ ", maxX=" +:+ pretty maxX +:+
                           ", minY=" +:+ pretty minY +:+ ", maxY=" +:+ pretty maxY)]).
    exists [EPrint ("Output file name: " +:+
                    tile_prefix (get data "tileNumY") (get data "tileNumX")
                      (get data "numYTiles") (get data "numXTiles")
                      (get data "output_file_prefix"));
            ESetAttr "defaultArnoldRenderOptions.renderType" (VInt 0)].
    cbn [log emit setAttr]. rewrite Hlog. rewrite <- !app_assoc. reflexivity.
Qed.

(** C10. A call that returns leaves
    [defaultArnoldRenderOptions.log_verbosity] at the maximum of its
    former value and 2: set to 2 when it was below, untouched otherwise. *)
Theorem log_verbosity_raised (data : gmap string pyval) (h h' : Handler) (w w' : Host) :
  start_render get_camera_to_render data (h, w) = ((h', w'), inr tt) →
  ∃ z,
    int_of (getAttr w "defaultArnoldRenderOptions.log_verbosity") = Some z ∧
    getAttr w' "defaultArnoldRenderOptions.log_verbosity"
    = (if z <? 2 then VInt 2 else getAttr w "defaultArnoldRenderOptions.log_verbosity") ∧
    int_of (getAttr w' "defaultArnoldRenderOptions.log_verbosity") = Some (Z.max z 2).
Proof.
  intros Hrun. apply start_render_returns in Hrun
    as (camera & [h5 w5] & z & _ & _ & Ht & Hz & -> & ->).
  apply configure_tiles_returns in Ht as (_ & Hv & _).
  cbn [snd] in Hv, Hz. unfold getAttr in Hv at 2.
  rewrite resolution_defaults_attr in Hv. cbn [snd] in Hv.
  fold (getAttr w "defaultArnoldRenderOptions.log_verbosity") in Hv.
  rewrite Hv in Hz. exists z. split; [exact Hz|].
  destruct (Z.ltb_spec z 2).
  - split; [reflexivity|].
    change (Some 2 = Some (Z.max z 2)). f_equal. lia.
  - change (getAttr w5 "defaultArnoldRenderOptions.log_verbosity"
            = getAttr w "defaultArnoldRenderOptions.log_verbosity"
            ∧ int_of (getAttr w5 "defaultArnoldRenderOptions.log_verbosity")
              = Some (Z.max z 2)).
    rewrite Hv. split; [reflexivity|]. rewrite Hz. f_equal. lia.
Qed.

End Run.

(** C8. [set_error_on_arnold_license_fail] sets
    [defaultArnoldRenderOptions.abortOnLicenseFail] to the value at
    ["error_on_arnold_license_fail"], and to [True] when the key is
    absent; it does nothing else. *)
Theorem abort_on_license_fail_set (data : gmap string pyval) (h : Handler) (w : Host) :
  let val := match data !! "error_on_arnold_license_fail" with
             | Some v => v
             | None => VBool true
             end in
  set_error_on_arnold_license_fail data (h, w)
  = ((h, setAttr "defaultArnoldRenderOptions.abortOnLicenseFail" val w), inr tt) ∧
  getAttr (scene_after (set_error_on_arnold_license_fail data (h, w)))
    "defaultArnoldRenderOptions.abortOnLicenseFail" = val ∧
  log (scene_after (set_error_on_arnold_license_fail data (h, w)))
  = log w ++ [ESetAttr "defaultArnoldRenderOptions.abortOnLicenseFail" val].
Proof.
  cbn zeta. unfold set_error_on_arnold_license_fail, get_default, cmds_setAttr, scene_after.
  cbn [fst snd]. destruct (data !! "error_on_arnold_license_fail"); cbn [default];
    (split; [reflexivity|]); split; first [apply getAttr_setAttr_eq | reflexivity].
Qed.

(** *** The theorems at sample inputs *)

Lemma start_render_without_frame_witness :
  (∅ : gmap string pyval) !! "frame" = None ∧
  start_render persp_camera ∅ (fresh_handler, scene 1920 1080 1)
  = ((fresh_handler, scene 1920 1080 1),
     inl (RuntimeError "MayaClient: start_render called without a frame number.")).
Proof.
  split; [reflexivity|].
  apply (start_render_without_frame persp_camera ∅). left. reflexivity.
Defined.

Lemma start_render_non_integer_tiles_witness :
  let run := start_render persp_camera tile_3_1_text (fresh_handler, scene 1920 1080 1) in
  isinstance_int (get tile_3_1_text "numXTiles") = false ∧
  (∃ msg, outcome run = inl (RuntimeError msg)) ∧
  attr (scene_after run) = attr (scene 1920 1080 1) ∧
  ∃ events, log (scene_after run) = log (scene 1920 1080 1) ++ events ∧ quiet events.
Proof.
  split; [reflexivity|].
  apply (start_render_non_integer_tiles persp_camera tile_3_1_text).
  - vm_compute. discriminate.
  - vm_compute. discriminate.
  - left. reflexivity.
Defined.

Lemma start_render_defaults_resolution_witness :
  let run := start_render persp_camera (frame_data 1) (fresh_handler, scene 1920 1080 1) in
  render_kwargs fresh_handler !! "width" = None ∧
  render_kwargs fresh_handler !! "height" = None ∧
  render_kwargs (handler_after run) !! "width" = Some (VInt 1920) ∧
  render_kwargs (handler_after run) !! "height" = Some (VInt 1080).
Proof.
  assert (get (frame_data 1) "frame" ≠ VNone) as Hf by (vm_compute; discriminate).
  pose proof (start_render_defaults_resolution persp_camera (frame_data 1)
                fresh_handler (scene 1920 1080 1) (VStr "persp") Hf eq_refl)
    as (Hw & Hh & _).
  split; [reflexivity|]. split; [reflexivity|].
  split; [exact (Hw eq_refl)|exact (Hh eq_refl)].
Defined.


Lemma tile_prefix_set_witness :
  let run := start_render persp_camera tile_3_1 (fresh_handler, mistyped_scene) in
  outcome run = inl TypeError ∧
  getAttr (scene_after run) "defaultRenderGlobals.imageFilePrefix"
  = VStr "_tile_1x3_2x3_img".
Proof.
  split; [reflexivity|].
  assert (get tile_3_1 "frame" ≠ VNone) as Hf by (vm_compute; discriminate).
  assert ((3 : Z) ≠ 0) as H3 by lia. assert ((2 : Z) ≠ 0) as H2 by lia.
  destruct (tile_prefix_set persp_camera tile_3_1 fresh_handler mistyped_scene
              (VStr "persp") 1920 1080 3 2 3 1 Hf)
    as [Hprefix _]; [reflexivity | vm_compute; reflexivity.. | exact H3 | exact H2 |].
  exact Hprefix.
Defined.

Lemma log_verbosity_raised_witness :
  let run := start_render persp_camera (frame_data 1) (fresh_handler, scene 1920 1080 1) in
  outcome run = inr tt ∧
  getAttr (scene_after run) "defaultArnoldRenderOptions.log_verbosity" = VInt 2.
Proof.
  split; [reflexivity|].
  assert (start_render persp_camera (frame_data 1) (fresh_handler, scene 1920 1080 1)
          = ((handler_after (start_render persp_camera (frame_data 1)
                               (fresh_handler, scene 1920 1080 1)),
              scene_after (start_render persp_camera (frame_data 1)
                             (fresh_handler, scene 1920 1080 1))), inr tt))
    as Hrun by reflexivity.
  destruct (log_verbosity_raised persp_camera (frame_data 1) _ _ _ _ Hrun)
    as (z & Hz & Hv & _).
  injection Hz as <-. exact Hv.
Defined.

Lemma start_render_tile_region_witness :
  let run := start_render persp_camera tile_3_1 (fresh_handler, scene 1920 1080 1) in
  outcome run = inr tt ∧
  tile_bounds 1920 1080 3 2 3 1 = (1280, 1919, 0, 539) ∧
  getAttr (scene_after run) "defaultArnoldRenderOptions.regionMinX" = VInt 1280 ∧
  getAttr (scene_after run) "defaultArnoldRenderOptions.regionMaxX" = VInt 1919 ∧
  getAttr (scene_after run) "defaultArnoldRenderOptions.regionMinY" = VInt 0 ∧
  getAttr (scene_after run) "defaultArnoldRenderOptions.regionMaxY" = VInt 539.
Proof.
  split; [reflexivity|]. split; [reflexivity|].
  assert (start_render persp_camera tile_3_1 (fresh_handler, scene 1920 1080 1)
          = ((handler_after (start_render persp_camera tile_3_1
                               (fresh_handler, scene 1920 1080 1)),
              scene_after (start_render persp_camera tile_3_1
                             (fresh_handler, scene 1920 1080 1))), inr tt))
    as Hrun by reflexivity.
  assert (get tile_3_1 "numXTiles" ≠ VNone) as Hx by (vm_compute; discriminate).
  assert (get tile_3_1 "numYTiles" ≠ VNone) as Hy by (vm_compute; discriminate).
  destruct (start_render_tile_region persp_camera tile_3_1 _ _ _ _ Hrun Hx Hy)
    as (width & height & W & H & Nx & Ny & tx & ty &
        Hw & HW & Hh & HH & HNx & HNy & Htx & Hty & Hregion).
  vm_compute in Hw. injection Hw as <-. injection HW as <-.
  vm_compute in Hh. injection Hh as <-. injection HH as <-.
  vm_compute in HNx, HNy, Htx, Hty.
  injection HNx as <-. injection HNy as <-. injection Htx as <-. injection Hty as <-.
  change (tile_bounds 1920 1080 3 2 3 1) with (1280, 1919, 0, 539) in Hregion.
  exact Hregion.
Defined.

(** *** Where three statements fail *)

(** C4, as stated, fails: a call without a frame raises at line 31 and
    never reaches the defaults, so ["width"] is still missing after it. *)
Lemma frameless_call_sets_no_width : ¬ resolution_defaulted_by_every_call persp_camera.
Proof.
  intros Hclaim.
  specialize (Hclaim ∅ fresh_handler (scene 1920 1080 1) eq_refl).
  vm_compute in Hclaim. discriminate Hclaim.
Qed.

(** C9, as stated, fails: with a frame, a camera and integer tile
    parameters, a column count of 0 makes [divmod] raise at line 67, and
    the image file prefix is never set. *)
Lemma zero_columns_set_no_prefix : ¬ tile_prefix_set_by_every_tile_call persp_camera.
Proof.
  intros Hclaim.
  assert (get tile_zero_columns "numXTiles" ≠ VNone) as Hx by (vm_compute; discriminate).
  assert (get tile_zero_columns "numYTiles" ≠ VNone) as Hy by (vm_compute; discriminate).
  specialize (Hclaim tile_zero_columns fresh_handler (scene 1920 1080 1)
                Hx Hy eq_refl eq_refl eq_refl eq_refl).
  vm_compute in Hclaim. discriminate Hclaim.
Qed.


End ArnoldProofs.

(** * Properties of the submitter command *)

Module SubmitterProofs.

Import Submitter.

Section Command.

Variables Settings UISettings : Type.
Variable default_ui_settings : UISettings.
Variable apply_saved_settings : UISettings → Settings → UISettings.
Variable truthy : Settings → bool.
Variable dumps_asdict : UISettings → string.
Variable gui_error_handler : string → Widget → exn → option exn.

Local Abbreviation command :=
  (doIt default_ui_settings apply_saved_settings truthy dumps_asdict gui_error_handler).

Lemma eqb_empty_false (name : string) : name ≠ "" → String.eqb name "" = false.
Proof. intros Hne. by apply String.eqb_neq. Qed.

(** C6, amended. In UI mode, with a top-level widget named [MayaWindow]
    among the application's widgets, on a scene without a file name the
    command logs its opening line, shows the modal dialog and returns: it
    raises nothing, does not load the settings, sets no result and does
    not open the submitter. *)
Theorem unsaved_scene_shows_dialog
    (env : Env Settings) (mainwin : Widget) (others : list Widget) :
  mayaState env ∈ [kInteractive; kBaseUIMode] →
  filter (λ widget, objectName widget = "MayaWindow") (topLevelWidgets env)
  = mainwin :: others →
  sceneName env = "" →
  command env
  = ([ELoggerInfo "Opening Amazon Deadline Cloud Submitter";
      EConfirmDialog "Deadline Cloud Submitter"
        "The Maya Scene is not saved to disk. Please save it before opening the submitter dialog."
        "OK" "OK"],
     inr tt) ∧
  Forall (λ e, is_load e = false ∧ is_setResult e = false ∧ is_show e = false)
    (fst (command env)) ∧
  Exists (λ e, is_dialog e = true) (fst (command env)).
Proof.
  intros Hui Hwin Hscene.
  assert (command env
          = ([ELoggerInfo "Opening Amazon Deadline Cloud Submitter";
              EConfirmDialog "Deadline Cloud Submitter" unsaved_message "OK" "OK"],
             inr tt)) as Hrun.
  { unfold doIt. rewrite (bool_decide_eq_true_2 _ Hui), Hwin.
    unfold doIt_body. rewrite Hscene. reflexivity. }
  rewrite Hrun. split; [reflexivity|]. cbn [fst]. split.
  - repeat constructor.
  - apply Exists_cons_tl, Exists_cons_hd. reflexivity.
Qed.

(** C5. When the command gets to load the saved settings (UI mode, main
    window up, scene saved) and the load raises
    [PersistentDataclassError], the error is caught and its traceback
    printed; the command then returns normally, having set the result to
    the serialized default UI settings and shown the submitter with them:
    what it does when the load returns no settings, plus the traceback. *)
Theorem load_failure_is_no_saved_settings
    (env : Env Settings) (mainwin : Widget) (others : list Widget) :
  mayaState env ∈ [kInteractive; kBaseUIMode] →
  filter (λ widget, objectName widget = "MayaWindow") (topLevelWidgets env)
  = mainwin :: others →
  sceneName env ≠ "" →
  load env = LoadRaisesPersistentDataclassError →
  command env
  = ([ELoggerInfo "Opening Amazon Deadline Cloud Submitter";
      ELoadSettings;
      ETracebackPrintExc;
      ESetResult (dumps_asdict default_ui_settings);
      EShowSubmitter mainwin default_ui_settings],
     inr tt) ∧
  snd (command (with_load env (LoadReturns None))) = snd (command env) ∧
  fst (command (with_load env (LoadReturns None)))
  = List.filter (λ e, negb (is_traceback e)) (fst (command env)).
Proof.
  intros Hui Hwin Hscene Hload.
  apply eqb_empty_false in Hscene.
  assert (command env
          = ([ELoggerInfo "Opening Amazon Deadline Cloud Submitter";
              ELoadSettings; ETracebackPrintExc;
              ESetResult (dumps_asdict default_ui_settings);
              EShowSubmitter mainwin default_ui_settings],
             inr tt)) as Hrun.
  { unfold doIt. rewrite (bool_decide_eq_true_2 _ Hui), Hwin.
    unfold doIt_body. rewrite Hscene, Hload. reflexivity. }
  assert (command (with_load env (LoadReturns None))
          = ([ELoggerInfo "Opening Amazon Deadline Cloud Submitter";
              ELoadSettings;
              ESetResult (dumps_asdict default_ui_settings);
              EShowSubmitter mainwin default_ui_settings],
             inr tt)) as Hnone.
  { unfold doIt. cbn [with_load mayaState topLevelWidgets sceneName load].
    rewrite (bool_decide_eq_true_2 _ Hui), Hwin.
    unfold doIt_body. cbn [with_load mayaState topLevelWidgets sceneName load].
    rewrite Hscene. reflexivity. }
  rewrite Hrun, Hnone. repeat split; reflexivity.
Qed.

End Command.

Lemma unsaved_scene_shows_dialog_witness :
  sceneName unsaved_env = "" ∧
  sample_doIt unsaved_env
  = ([ELoggerInfo "Opening Amazon Deadline Cloud Submitter";
      EConfirmDialog "Deadline Cloud Submitter"
        "The Maya Scene is not saved to disk. Please save it before opening the submitter dialog."
        "OK" "OK"],
     inr tt).
Proof.
  split; [reflexivity|].
  refine (proj1 (unsaved_scene_shows_dialog _ _ sample_defaults sample_apply (λ _, true)
                   sample_dumps sample_handler unsaved_env maya_window [] _ _ _)).
  - simpl. apply list_elem_of_here.
  - reflexivity.
  - reflexivity.
Defined.

(** C6, as stated, fails: in UI mode, on an unsaved scene, with no
    widget named [MayaWindow], the lookup of lines 43-45 raises
    [IndexError] before the scene is looked at, and no dialog is shown. *)
Lemma unsaved_scene_without_main_window : ¬ unsaved_scene_always_handled sample_doIt.
Proof.
  intros Hclaim. destruct (Hclaim windowless_unsaved_env) as [Hreturns _].
  - simpl. apply list_elem_of_further, list_elem_of_here.
  - reflexivity.
  - vm_compute in Hreturns. discriminate Hreturns.
Qed.

Lemma load_failure_is_no_saved_settings_witness :
  load failing_load_env = LoadRaisesPersistentDataclassError ∧
  sample_doIt failing_load_env
  = ([ELoggerInfo "Opening Amazon Deadline Cloud Submitter";
      ELoadSettings;
      ETracebackPrintExc;
      ESetResult "frames=1-10;";
      EShowSubmitter maya_window [("frames", "1-10")]],
     inr tt).
Proof.
  split; [reflexivity|].
  refine (proj1 (load_failure_is_no_saved_settings _ _ sample_defaults sample_apply
                   (λ _, true) sample_dumps sample_handler failing_load_env
                   maya_window [] _ _ _ _)).
  - simpl. apply list_elem_of_here.
  - reflexivity.
  - vm_compute. discriminate.
  - reflexivity.
Defined.

End SubmitterProofs.

(** * Further properties of the Arnold handler *)

Module ArnoldExtras.

Import Py Maya Arnold ArnoldProofs.

(** *** Steps and the attributes they set *)

Create HintDb sets.
Create HintDb renders.

Lemma sets_only_bind {A B : Type} names (m : M A) (k : A → M B) :
  sets_only names m → (∀ a, sets_only names (k a)) → sets_only names (m ≫= k).
Proof.
  intros Hm Hk s name Hname. rewrite bind_run. specialize (Hm s name Hname).
  unfold scene_after in *. destruct (m s) as [s' [e|a]]; [exact Hm|].
  rewrite <- Hm. exact (Hk a s' name Hname).
Qed.

Lemma sets_only_quiet {A : Type} names (m : M A) :
  (∀ s, attr (scene_after (m s)) = attr (snd s)) → sets_only names m.
Proof. intros Hm s name _. unfold getAttr. by rewrite Hm. Qed.

Lemma sets_only_ret {A : Type} names (a : A) : sets_only names (mret a).
Proof. by apply sets_only_quiet. Qed.

Lemma sets_only_raise {A : Type} names e : sets_only names (raise (A:=A) e).
Proof. by apply sets_only_quiet. Qed.

Lemma sets_only_lift {A : Type} names (r : exn + A) : sets_only names (lift r).
Proof. by apply sets_only_quiet. Qed.

Lemma sets_only_kwargs names : sets_only names kwargs.
Proof. by apply sets_only_quiet. Qed.

Lemma sets_only_set_kwarg names k v : sets_only names (set_kwarg k v).
Proof. by apply sets_only_quiet. Qed.

Lemma sets_only_getAttr names name : sets_only names (cmds_getAttr name).
Proof. by apply sets_only_quiet. Qed.

Lemma sets_only_print names line : sets_only names (print line).
Proof. by apply sets_only_quiet. Qed.

Lemma sets_only_arnoldRender names kw : sets_only names (cmds_arnoldRender kw).
Proof. by apply sets_only_quiet. Qed.

Lemma sets_only_as_int names v : sets_only names (as_int v).
Proof. unfold as_int. destruct (int_of v); by apply sets_only_quiet. Qed.

Lemma sets_only_camera names gc data : sets_only names (camera_to_render gc data).
Proof. by apply sets_only_quiet. Qed.

Lemma sets_only_setAttr names name v :
  name ∈ names → sets_only names (cmds_setAttr name v).
Proof.
  intros Hin s name' Hout. unfold cmds_setAttr, scene_after. cbn [fst snd].
  apply getAttr_setAttr_ne. intros ->. contradiction.
Qed.

#[local] Hint Resolve sets_only_ret sets_only_raise sets_only_lift sets_only_kwargs
  sets_only_set_kwarg sets_only_getAttr sets_only_print sets_only_arnoldRender
  sets_only_as_int sets_only_camera : sets.

Ltac sets :=
  repeat first
    [ solve [auto with sets]
    | apply sets_only_bind; [|intros ?]
    | apply sets_only_setAttr;
      solve [repeat first [apply list_elem_of_here | apply list_elem_of_further]]
    | match goal with
      | |- sets_only _ (if ?b then _ else _) => destruct b
      | |- sets_only _ (let '(_, _) := ?p in _) => destruct p
      | |- sets_only _ (match ?x with _ => _ end) => destruct x
      end ].

Lemma default_resolution_sets names key attribute :
  sets_only names (default_resolution key attribute).
Proof. unfold default_resolution. sets. Qed.

Lemma tile_setup_sets data numXTiles numYTiles :
  sets_only tile_attributes (tile_setup data numXTiles numYTiles).
Proof. unfold tile_setup, tile_attributes. sets. Qed.

Lemma finish_render_sets frame : sets_only render_attributes (finish_render frame).
Proof. unfold finish_render, render_attributes. sets. Qed.

Lemma sets_only_mono {A : Type} names names' (m : M A) :
  names ⊆ names' → sets_only names m → sets_only names' m.
Proof. intros Hsub Hm s name Hout. apply Hm. intros Hin. apply Hout, Hsub, Hin. Qed.

Section Frame.
Variable get_camera_to_render : State → gmap string pyval → string + pyval.

Lemma configure_tiles_sets data : sets_only tile_attributes (configure_tiles data).
Proof.
  unfold configure_tiles. cbn zeta.
  destruct (_ && _); [apply tile_setup_sets|apply sets_only_ret].
Qed.

Lemma start_render_sets_with names data :
  sets_only names (configure_tiles data) →
  sets_only names (finish_render (get data "frame")) →
  sets_only names (start_render get_camera_to_render data).
Proof.
  intros Htiles Hfinish. unfold start_render. cbn zeta.
  destruct (is_none _); [apply sets_only_raise|].
  apply sets_only_bind; [auto with sets|intros _].
  apply sets_only_bind; [auto with sets|intros camera].
  apply sets_only_bind; [auto with sets|intros _].
  apply sets_only_bind; [apply default_resolution_sets|intros _].
  apply sets_only_bind; [apply default_resolution_sets|intros _].
  apply sets_only_bind; [exact Htiles|intros _; exact Hfinish].
Qed.

Lemma start_render_sets data :
  sets_only (tile_attributes ++ render_attributes)
    (start_render get_camera_to_render data).
Proof.
  apply (start_render_sets_with _ data).
  - eapply sets_only_mono; [|apply configure_tiles_sets].
    intros x Hx. apply elem_of_app. by left.
  - eapply sets_only_mono; [|apply finish_render_sets].
    intros x Hx. apply elem_of_app. by right.
Qed.

(** X2. Whatever the run-data and however the call ends, [start_render]
    leaves every attribute of the scene as it was, except the four region
    bounds, the image file prefix, the render type and the log verbosity. *)
Theorem start_render_frame (data : gmap string pyval) (h : Handler) (w : Host)
    (name : string) :
  name ∉ tile_attributes ++ render_attributes →
  getAttr (scene_after (start_render get_camera_to_render data (h, w))) name
  = getAttr w name.
Proof. intros Hname. exact (start_render_sets data (h, w) name Hname). Qed.

(** X3. A call that is not given both tile counts sets nothing but the
    render type and the log verbosity: the region and the image file
    prefix stay as an earlier tile render left them. *)
Theorem untiled_call_keeps_region (data : gmap string pyval) (h : Handler) (w : Host)
    (name : string) :
  get data "numXTiles" = VNone ∨ get data "numYTiles" = VNone →
  name ∉ render_attributes →
  getAttr (scene_after (start_render get_camera_to_render data (h, w))) name
  = getAttr w name.
Proof.
  intros Hnone Hname. revert Hname. apply (start_render_sets_with _ data).
  - unfold configure_tiles. cbn zeta.
    destruct Hnone as [-> | ->]; cbn [is_none negb andb];
      rewrite ?andb_false_r; apply sets_only_ret.
  - apply finish_render_sets.
Qed.

End Frame.

Lemma start_render_frame_witness :
  getAttr (scene_after (start_render persp_camera tile_3_1 (fresh_handler, licensed_scene)))
    "defaultArnoldRenderOptions.abortOnLicenseFail"
  = VBool false.
Proof.
  apply (start_render_frame persp_camera tile_3_1 fresh_handler licensed_scene).
  refine (bool_decide_unpack _ _). vm_compute. exact I.
Defined.

Lemma untiled_call_keeps_region_witness :
  get (frame_data 1) "numXTiles" = VNone ∧
  getAttr (scene_after (start_render persp_camera (frame_data 1)
                          (fresh_handler,
                           setAttr "defaultRenderGlobals.imageFilePrefix"
                             (VStr "_tile_1x3_2x3_img") (scene 1920 1080 1))))
    "defaultRenderGlobals.imageFilePrefix"
  = VStr "_tile_1x3_2x3_img".
Proof.
  split; [reflexivity|].
  apply (untiled_call_keeps_region persp_camera (frame_data 1) fresh_handler).
  - left. reflexivity.
  - refine (bool_decide_unpack _ _). vm_compute. exact I.
Defined.

(** *** The renderer is called once, by a call that returns *)

Lemma rendered_snoc_other events e :
  is_render e = false → rendered (events ++ [e]) = rendered events.
Proof.
  intros He. unfold rendered. rewrite omap_app. destruct e; try discriminate;
    cbn; by rewrite app_nil_r.
Qed.

Lemma rendered_snoc_render events kw :
  rendered (events ++ [EArnoldRender kw]) = rendered events ++ [kw].
Proof. unfold rendered. by rewrite omap_app. Qed.

Lemma renders_nothing_bind {A B : Type} (m : M A) (k : A → M B) :
  renders_nothing m → (∀ a, renders_nothing (k a)) → renders_nothing (m ≫= k).
Proof.
  intros Hm Hk s. rewrite bind_run. specialize (Hm s).
  unfold scene_after in *. destruct (m s) as [s' [e|a]]; [exact Hm|].
  rewrite <- Hm. exact (Hk a s').
Qed.

Lemma renders_nothing_still {A : Type} (m : M A) :
  (∀ s, log (scene_after (m s)) = log (snd s)) → renders_nothing m.
Proof. intros Hm s. by rewrite Hm. Qed.

Lemma renders_nothing_ret {A : Type} (a : A) : renders_nothing (mret a).
Proof. by apply renders_nothing_still. Qed.

Lemma renders_nothing_raise {A : Type} e : renders_nothing (raise (A:=A) e).
Proof. by apply renders_nothing_still. Qed.

Lemma renders_nothing_lift {A : Type} (r : exn + A) : renders_nothing (lift r).
Proof. by apply renders_nothing_still. Qed.

Lemma renders_nothing_kwargs : renders_nothing kwargs.
Proof. by apply renders_nothing_still. Qed.

Lemma renders_nothing_set_kwarg k v : renders_nothing (set_kwarg k v).
Proof. by apply renders_nothing_still. Qed.

Lemma renders_nothing_getAttr name : renders_nothing (cmds_getAttr name).
Proof. by apply renders_nothing_still. Qed.

Lemma renders_nothing_as_int v : renders_nothing (as_int v).
Proof. unfold as_int. destruct (int_of v); by apply renders_nothing_still. Qed.

Lemma renders_nothing_camera gc data : renders_nothing (camera_to_render gc data).
Proof. by apply renders_nothing_still. Qed.

Lemma renders_nothing_setAttr name v : renders_nothing (cmds_setAttr name v).
Proof. intros s. by apply rendered_snoc_other. Qed.

Lemma renders_nothing_print line : renders_nothing (print line).
Proof. intros s. by apply rendered_snoc_other. Qed.

#[local] Hint Resolve renders_nothing_ret renders_nothing_raise renders_nothing_lift
  renders_nothing_kwargs renders_nothing_set_kwarg renders_nothing_getAttr
  renders_nothing_as_int renders_nothing_camera renders_nothing_setAttr
  renders_nothing_print : renders.

Ltac renders :=
  repeat first
    [ solve [auto with renders]
    | apply renders_nothing_bind; [|intros ?]
    | match goal with
      | |- renders_nothing (if ?b then _ else _) => destruct b
      | |- renders_nothing (let '(_, _) := ?p in _) => destruct p
      | |- renders_nothing (match ?x with _ => _ end) => destruct x
      end ].

Lemma default_resolution_renders_nothing key attribute :
  renders_nothing (default_resolution key attribute).
Proof. unfold default_resolution. renders. Qed.

Lemma configure_tiles_renders_nothing data : renders_nothing (configure_tiles data).
Proof. unfold configure_tiles, tile_setup. cbn zeta. renders. Qed.

Section Once.
Variable get_camera_to_render : State → gmap string pyval → string + pyval.

Lemma rendered_after_call data h w :
  rendered (log (scene_after (start_render get_camera_to_render data (h, w))))
  = rendered (log w) ++
    match outcome (start_render get_camera_to_render data (h, w)) with
    | inr _ => [render_kwargs (handler_after (start_render get_camera_to_render data (h, w)))]
    | inl _ => []
    end.
Proof.
  rewrite start_render_run. cbn zeta.
  destruct (is_none _); [by rewrite app_nil_r|].
  destruct (get_camera_to_render _ data) as [msg|camera]; [by rewrite app_nil_r|].
  set (s2 := (mkHandler _, w)).
  pose proof (default_resolution_renders_nothing "width" "defaultResolution.width" s2) as H3.
  set (s3 := fst (default_resolution "width" _ s2)) in *.
  pose proof (default_resolution_renders_nothing "height" "defaultResolution.height" s3) as H4.
  set (s4 := fst (default_resolution "height" _ s3)) in *.
  pose proof (configure_tiles_renders_nothing data s4) as H5.
  unfold scene_after in H3, H4, H5. fold s3 in H3. fold s4 in H4.
  cbn [snd] in H3. rewrite H4, H3 in H5. clear H3 H4.
  destruct (configure_tiles data s4) as [[h5 w5] [e|[]]]; cbn [fst snd] in H5.
  { unfold scene_after, outcome. cbn [fst snd]. by rewrite H5, app_nil_r. }
  rewrite finish_render_run. cbn zeta.
  destruct (int_of (getAttr w5 _)) as [z|];
    unfold scene_after, outcome, handler_after; cbn [fst snd].
  - destruct (z <? 2); cbn [log emit setAttr];
      rewrite rendered_snoc_other, rendered_snoc_render by done;
      rewrite !rendered_snoc_other by done; by rewrite H5.
  - cbn [log setAttr]. rewrite rendered_snoc_other by done. by rewrite H5, app_nil_r.
Qed.

(** X4. [start_render] calls [arnoldRender] at most once, and a call
    that returns has called it exactly once, with the [render_kwargs] it
    leaves behind. *)
Theorem renders_once_when_returns (data : gmap string pyval) (h : Handler) (w : Host) :
  let run := start_render get_camera_to_render data (h, w) in
  (∃ calls, rendered (log (scene_after run)) = rendered (log w) ++ calls
            ∧ (length calls ≤ 1)%nat) ∧
  (outcome run = inr tt →
   rendered (log (scene_after run))
   = rendered (log w) ++ [render_kwargs (handler_after run)]).
Proof.
  cbn zeta. pose proof (rendered_after_call data h w) as Hrendered. split.
  - eexists. split; [exact Hrendered|].
    destruct (outcome _); cbn [length]; lia.
  - intros Hreturns. by rewrite Hreturns in Hrendered.
Qed.

Lemma other_keys_after_call data h w k :
  k ∉ start_render_keys →
  render_kwargs (handler_after (start_render get_camera_to_render data (h, w))) !! k
  = render_kwargs h !! k.
Proof.
  intros Hk. unfold start_render_keys in Hk.
  apply not_elem_of_cons in Hk as [Hseq Hk].
  apply not_elem_of_cons in Hk as [Hcamera Hk].
  apply not_elem_of_cons in Hk as [Hwidth Hk].
  apply not_elem_of_cons in Hk as [Hheight _].
  rewrite start_render_handler. cbn zeta.
  destruct (is_none _); [reflexivity|].
  destruct (get_camera_to_render _ data) as [msg|camera]; cbn [fst render_kwargs].
  - by rewrite lookup_insert_ne.
  - unfold handler_after. rewrite !default_resolution_kwargs.
    cbn [fst snd render_kwargs]. rewrite !lookup_insert_ne by done.
    destruct (render_kwargs h !! k); [reflexivity|].
    by rewrite !decide_False.
Qed.

(** X5. [start_render] writes the keys ["seq"], ["camera"], ["width"] and
    ["height"] of [render_kwargs] and no other: every other entry is
    after the call what it was before, however the call ends. *)
Theorem start_render_writes_four_keys
    (data : gmap string pyval) (h : Handler) (w : Host) (k : string) :
  k ∉ start_render_keys →
  render_kwargs (handler_after (start_render get_camera_to_render data (h, w))) !! k
  = render_kwargs h !! k.
Proof. exact (other_keys_after_call data h w k). Qed.

(** X19. A handler that [__init__] has set up renders in batch mode: in
    every call that returns, the one [arnoldRender] call is given
    [batch=True]. *)
Theorem handler_renders_in_batch
    (super_kwargs data : gmap string pyval) (w : Host) (h' : Handler) (w' : Host) :
  start_render get_camera_to_render data (ArnoldHandler_init super_kwargs, w)
  = ((h', w'), inr tt) →
  ∃ kw, rendered (log w') = rendered (log w) ++ [kw] ∧ kw !! "batch" = Some (VBool true).
Proof.
  intros Hrun.
  pose proof (rendered_after_call data (ArnoldHandler_init super_kwargs) w) as Hrendered.
  pose proof (other_keys_after_call data (ArnoldHandler_init super_kwargs) w "batch")
    as Hbatch.
  rewrite Hrun in Hrendered, Hbatch.
  unfold outcome, scene_after, handler_after in *. cbn [fst snd] in *.
  exists (render_kwargs h'). split; [exact Hrendered|].
  rewrite Hbatch.
  - unfold ArnoldHandler_init. cbn [render_kwargs]. by rewrite lookup_insert_eq.
  - refine (bool_decide_unpack _ _). vm_compute. exact I.
Qed.

(** X20. The licence flag that [set_error_on_arnold_license_fail] sets
    is still in place when a later [start_render] is over, however that
    call ends: the value at ["error_on_arnold_license_fail"], [True] when
    the key is absent. *)
Theorem license_flag_survives_render
    (flags data : gmap string pyval) (h : Handler) (w : Host) :
  let licensed := scene_after (set_error_on_arnold_license_fail flags (h, w)) in
  getAttr (scene_after (start_render get_camera_to_render data (h, licensed)))
    "defaultArnoldRenderOptions.abortOnLicenseFail"
  = get_default flags "error_on_arnold_license_fail" (VBool true).
Proof.
  cbn zeta.
  rewrite (start_render_sets get_camera_to_render data
             (h, scene_after (set_error_on_arnold_license_fail flags (h, w)))
             "defaultArnoldRenderOptions.abortOnLicenseFail").
  - unfold set_error_on_arnold_license_fail, cmds_setAttr, scene_after. cbn [fst snd].
    apply getAttr_setAttr_eq.
  - refine (bool_decide_unpack _ _). vm_compute. exact I.
Qed.

(** X6. A call that returns has rendered the frame of the run-data with
    the camera that the lookup gave, and has switched the render type to
    0, so that Arnold renders the image. *)
Theorem returning_call_renders_frame
    (data : gmap string pyval) (h h' : Handler) (w w' : Host) :
  start_render get_camera_to_render data (h, w) = ((h', w'), inr tt) →
  get data "frame" ≠ VNone ∧
  render_kwargs h' !! "seq" = Some (get data "frame") ∧
  (∃ camera,
     get_camera_to_render
       (mkHandler (<["seq" := get data "frame"]> (render_kwargs h)), w) data = inr camera ∧
     render_kwargs h' !! "camera" = Some camera) ∧
  getAttr w' "defaultArnoldRenderOptions.renderType" = VInt 0.
Proof.
  intros Hrun. apply start_render_returns in Hrun
    as (camera & [h5 w5] & z & Hf & Hc & Ht & _ & -> & ->).
  apply configure_tiles_returns in Ht as (H5 & _ & _). cbn [fst] in H5.
  split; [exact Hf|]. rewrite H5.
  split; [|split].
  - do 2 apply default_resolution_keeps. cbn [fst render_kwargs].
    rewrite lookup_insert_ne by done. by rewrite lookup_insert_eq.
  - exists camera. split; [exact Hc|].
    do 2 apply default_resolution_keeps. cbn [fst render_kwargs].
    by rewrite lookup_insert_eq.
  - destruct (z <? 2); reflexivity.
Qed.

(** X7. When the camera lookup fails, [start_render] raises a
    [RuntimeError] with the lookup's message; the frame is already in
    [render_kwargs] under ["seq"], nothing else has been written and the
    scene is untouched. *)
Theorem camera_failure_raises
    (data : gmap string pyval) (h : Handler) (w : Host) (msg : string) :
  get data "frame" ≠ VNone →
  get_camera_to_render
    (mkHandler (<["seq" := get data "frame"]> (render_kwargs h)), w) data = inl msg →
  start_render get_camera_to_render data (h, w)
  = ((mkHandler (<["seq" := get data "frame"]> (render_kwargs h)), w),
     inl (RuntimeError msg)).
Proof.
  intros Hf Hc. rewrite start_render_run. cbn zeta.
  by rewrite (is_none_false _ Hf), Hc.
Qed.

End Once.

Lemma start_render_writes_four_keys_witness :
  render_kwargs (handler_after (start_render persp_camera tile_3_1
                                  (fresh_handler, scene 1920 1080 1))) !! "batch"
  = Some (VBool true).
Proof.
  apply (start_render_writes_four_keys persp_camera tile_3_1 fresh_handler
           (scene 1920 1080 1) "batch").
  refine (bool_decide_unpack _ _). vm_compute. exact I.
Defined.

Lemma renders_once_when_returns_witness :
  let run := start_render persp_camera (frame_data 7) (fresh_handler, scene 1920 1080 1) in
  outcome run = inr tt ∧
  rendered (log (scene_after run))
  = rendered (log (scene 1920 1080 1)) ++ [render_kwargs (handler_after run)].
Proof.
  split; [reflexivity|].
  destruct (renders_once_when_returns persp_camera (frame_data 7) fresh_handler
              (scene 1920 1080 1)) as [_ Honce].
  apply Honce. reflexivity.
Defined.

Lemma handler_renders_in_batch_witness :
  let run := start_render persp_camera (frame_data 7) (fresh_handler, scene 1920 1080 1) in
  outcome run = inr tt ∧
  ∃ kw, rendered (log (scene_after run)) = rendered (log (scene 1920 1080 1)) ++ [kw]
        ∧ kw !! "batch" = Some (VBool true).
Proof.
  split; [reflexivity|].
  assert (start_render persp_camera (frame_data 7) (ArnoldHandler_init ∅, scene 1920 1080 1)
          = ((handler_after (start_render persp_camera (frame_data 7)
                               (fresh_handler, scene 1920 1080 1)),
              scene_after (start_render persp_camera (frame_data 7)
                             (fresh_handler, scene 1920 1080 1))), inr tt))
    as Hrun by reflexivity.
  exact (handler_renders_in_batch persp_camera ∅ (frame_data 7) _ _ _ Hrun).
Defined.

Lemma returning_call_renders_frame_witness :
  let run := start_render persp_camera (frame_data 7) (fresh_handler, scene 1920 1080 1) in
  outcome run = inr tt ∧
  render_kwargs (handler_after run) !! "seq" = Some (VInt 7) ∧
  getAttr (scene_after run) "defaultArnoldRenderOptions.renderType" = VInt 0.
Proof.
  split; [reflexivity|].
  assert (start_render persp_camera (frame_data 7) (fresh_handler, scene 1920 1080 1)
          = ((handler_after (start_render persp_camera (frame_data 7)
                               (fresh_handler, scene 1920 1080 1)),
              scene_after (start_render persp_camera (frame_data 7)
                             (fresh_handler, scene 1920 1080 1))), inr tt))
    as Hrun by reflexivity.
  destruct (returning_call_renders_frame persp_camera (frame_data 7) _ _ _ _ Hrun)
    as (_ & Hseq & _ & Htype).
  split; [exact Hseq|exact Htype].
Defined.

Lemma camera_failure_raises_witness :
  outcome (start_render no_camera (frame_data 7) (fresh_handler, scene 1920 1080 1))
  = inl (RuntimeError "No camera was specified and no renderable camera was found.") ∧
  scene_after (start_render no_camera (frame_data 7) (fresh_handler, scene 1920 1080 1))
  = scene 1920 1080 1.
Proof.
  assert (get (frame_data 7) "frame" ≠ VNone) as Hf by (vm_compute; discriminate).
  rewrite (camera_failure_raises no_camera (frame_data 7) fresh_handler
             (scene 1920 1080 1) _ Hf eq_refl).
  split; reflexivity.
Defined.

(** *** Tile counts of zero *)

Lemma int_of_not_none v z : int_of v = Some z → is_none v = false.
Proof. by destruct v. Qed.

Lemma tile_setup_zero data numXTiles numYTiles h w width height W H Nx Ny tx ty :
  render_kwargs h !! "width" = Some width → int_of width = Some W →
  render_kwargs h !! "height" = Some height → int_of height = Some H →
  int_of numXTiles = Some Nx → int_of numYTiles = Some Ny →
  int_of (get data "tileNumX") = Some tx → int_of (get data "tileNumY") = Some ty →
  Nx = 0 ∨ Ny = 0 →
  tile_setup data numXTiles numYTiles (h, w) = ((h, w), inl ZeroDivisionError).
Proof.
  intros Hw HW Hh HH HNx HNy Htx Hty Hzero. unfold tile_setup.
  rewrite (int_of_isinstance _ _ HNx), (int_of_isinstance _ _ HNy),
    (int_of_isinstance _ _ Htx), (int_of_isinstance _ _ Hty). cbn [negb orb].
  run. rewrite Hw. unfold divmod. rewrite HW, HNx.
  destruct (Z.eqb_spec Nx 0); [reflexivity|].
  run. rewrite Hh, HH, HNy.
  destruct (Z.eqb_spec Ny 0); [reflexivity|]. lia.
Qed.

Section Zero.
Variable get_camera_to_render : State → gmap string pyval → string + pyval.

(** X8. A tile count of zero is not rejected as a bad parameter: with
    integer tile parameters and an integer resolution, [numXTiles = 0] or
    [numYTiles = 0] makes [start_render] raise [ZeroDivisionError] out of
    [divmod], before any attribute is set and without rendering. *)
Theorem zero_tile_count_raises
    (data : gmap string pyval) (h : Handler) (w : Host) (camera : pyval)
    (W H Nx Ny tx ty : Z) :
  get data "frame" ≠ VNone →
  get_camera_to_render
    (mkHandler (<["seq" := get data "frame"]> (render_kwargs h)), w) data = inr camera →
  int_of (resolved "width" "defaultResolution.width" h w) = Some W →
  int_of (resolved "height" "defaultResolution.height" h w) = Some H →
  int_of (get data "numXTiles") = Some Nx →
  int_of (get data "numYTiles") = Some Ny →
  int_of (get data "tileNumX") = Some tx →
  int_of (get data "tileNumY") = Some ty →
  Nx = 0 ∨ Ny = 0 →
  let run := start_render get_camera_to_render data (h, w) in
  outcome run = inl ZeroDivisionError ∧
  attr (scene_after run) = attr w ∧
  ∃ events, log (scene_after run) = log w ++ events ∧ quiet events.
Proof.
  intros Hf Hc HW HH HNx HNy Htx Hty Hzero. cbn zeta.
  rewrite start_render_run. cbn zeta. rewrite (is_none_false _ Hf), Hc.
  set (s2 := (mkHandler _, w)).
  pose proof (default_resolution_kwargs "width" "defaultResolution.width" s2 "width") as Kw3.
  pose proof (default_resolution_attr "width" "defaultResolution.width" s2) as Ha3.
  destruct (default_resolution_log "width" "defaultResolution.width" s2) as (e3 & Hl3 & Hq3).
  pose proof (default_resolution_kwargs "width" "defaultResolution.width" s2 "height") as Kh3.
  unfold scene_after in Ha3, Hl3.
  set (s3 := fst (default_resolution "width" _ s2)) in *.
  pose proof (default_resolution_kwargs "height" "defaultResolution.height" s3 "width") as Kw4.
  pose proof (default_resolution_kwargs "height" "defaultResolution.height" s3 "height") as Kh4.
  pose proof (default_resolution_attr "height" "defaultResolution.height" s3) as Ha4.
  destruct (default_resolution_log "height" "defaultResolution.height" s3) as (e4 & Hl4 & Hq4).
  unfold scene_after in Ha4, Hl4.
  set (s4 := fst (default_resolution "height" _ s3)) in *.
  assert (render_kwargs (fst s4) !! "width"
          = Some (resolved "width" "defaultResolution.width" h w)) as Hw4.
  { rewrite Kw4, Kw3. subst s2. cbn [fst snd render_kwargs].
    rewrite !lookup_insert_ne by done. unfold resolved.
    destruct (render_kwargs h !! "width"); [reflexivity|].
    by rewrite decide_True. }
  assert (render_kwargs (fst s4) !! "height"
          = Some (resolved "height" "defaultResolution.height" h w)) as Hh4.
  { rewrite Kh4, Kh3. subst s2. cbn [fst snd render_kwargs].
    rewrite !lookup_insert_ne by done. unfold resolved.
    destruct (render_kwargs h !! "height"); [reflexivity|].
    rewrite decide_False by done. rewrite decide_True by done.
    unfold getAttr. by rewrite Ha3. }
  unfold configure_tiles. cbn zeta.
  rewrite (int_of_not_none _ _ HNx), (int_of_not_none _ _ HNy). cbn [negb andb].
  destruct s4 as [h4 w4] eqn:Hs4. cbn [fst snd] in *.
  rewrite (tile_setup_zero data _ _ h4 w4 _ _ W H Nx Ny tx ty Hw4 HW Hh4 HH HNx HNy Htx Hty Hzero).
  unfold outcome, scene_after. cbn [fst snd].
  split; [reflexivity|]. split; [by rewrite Ha4, Ha3|].
  exists (e3 ++ e4). split; [|by apply quiet_app].
  rewrite Hl4, Hl3. subst s2. cbn [snd]. by rewrite app_assoc.
Qed.

End Zero.

Lemma zero_tile_count_raises_witness :
  let data := tile_data (VInt 1) (VInt 0) (VInt 2) (VInt 1) (VInt 1) "img" in
  let run := start_render persp_camera data (fresh_handler, scene 1920 1080 1) in
  outcome run = inl ZeroDivisionError ∧
  attr (scene_after run) = attr (scene 1920 1080 1).
Proof.
  cbn zeta.
  assert (get (tile_data (VInt 1) (VInt 0) (VInt 2) (VInt 1) (VInt 1) "img") "frame"
          ≠ VNone) as Hf by (vm_compute; discriminate).
  destruct (zero_tile_count_raises persp_camera
              (tile_data (VInt 1) (VInt 0) (VInt 2) (VInt 1) (VInt 1) "img")
              fresh_handler (scene 1920 1080 1) (VStr "persp") 1920 1080 0 2 1 1 Hf)
    as (Hraise & Hattr & _);
    [reflexivity | vm_compute; reflexivity.. | left; reflexivity |].
  split; [exact Hraise|exact Hattr].
Defined.

(** *** More tile arithmetic *)



(** X10. With tile counts other than zero, the first column starts at
    pixel 0, each column but the last ends one pixel before the next one
    starts, and the last column ends at pixel [W - 1]; likewise the rows. *)
Theorem tiles_abut (W H Nx Ny tx ty : Z) :
  Nx ≠ 0 → Ny ≠ 0 →
  let '(minX, maxX, minY, maxY) := tile_bounds W H Nx Ny tx ty in
  let '(nextX, _, _, _) := tile_bounds W H Nx Ny (tx + 1) ty in
  let '(_, _, nextY, _) := tile_bounds W H Nx Ny tx (ty + 1) in
  (tx = 1 → minX = 0) ∧ (tx ≠ Nx → maxX + 1 = nextX) ∧ (tx = Nx → maxX = W - 1) ∧
  (ty = 1 → minY = 0) ∧ (ty ≠ Ny → maxY + 1 = nextY) ∧ (ty = Ny → maxY = H - 1).
Proof.
  intros HNx HNy. rewrite !tile_bounds_axes. unfold axis_min, axis_max.
  pose proof (Z.div_mod W Nx HNx). pose proof (Z.div_mod H Ny HNy).
  destruct (Z.eqb_spec tx Nx), (Z.eqb_spec ty Ny); repeat split; intros; subst; nia.
Qed.

Lemma tiles_abut_witness :
  let '(minX, maxX, minY, maxY) := tile_bounds 1920 1080 3 2 1 1 in
  let '(nextX, _, _, _) := tile_bounds 1920 1080 3 2 (1 + 1) 1 in
  let '(_, _, nextY, _) := tile_bounds 1920 1080 3 2 1 (1 + 1) in
  (1 = 1 → minX = 0) ∧ (1 ≠ 3 → maxX + 1 = nextX) ∧ (1 = 3 → maxX = 1920 - 1) ∧
  (1 = 1 → minY = 0) ∧ (1 ≠ 2 → maxY + 1 = nextY) ∧ (1 = 2 → maxY = 1080 - 1).
Proof. apply (tiles_abut 1920 1080 3 2 1 1); lia. Defined.

(** *** Distinct tiles, distinct files *)

Lemma numeral_pretty_N_go x s : numeral s = true → numeral (pretty_N_go x s) = true.
Proof.
  revert s. induction (N.lt_wf_0 x) as [x _ IH]; intros s Hs.
  assert (x = 0 ∨ 0 < x)%N as [->|Hx] by lia.
  - by rewrite pretty_N_go_0.
  - rewrite pretty_N_go_step by done. apply IH; [by apply N.div_lt|].
    cbn [numeral]. rewrite Hs, andb_true_r.
    unfold pretty_N_char. by repeat case_match.
Qed.

Lemma numeral_pretty (z : Z) : numeral (pretty z) = true.
Proof.
  assert (∀ p : positive, numeral (pretty p) = true) as Hpos.
  { intros p. unfold pretty, pretty_positive, pretty, pretty_N.
    case_decide; [reflexivity|]. by apply numeral_pretty_N_go. }
  destruct z as [|p|p]; [reflexivity|apply Hpos|].
  change (pretty (Z.neg p)) with ("-" +:+ pretty p). cbn. apply Hpos.
Qed.

(** A separator that is no numeral character ends a numeral. *)
Lemma numeral_split s s' c r r' :
  numeral s = true → numeral s' = true → numeral_char c = false →
  s +:+ String c r = s' +:+ String c r' → s = s' ∧ r = r'.
Proof.
  revert s'. induction s as [|a s IH]; intros [|a' s'] Hs Hs' Hc; cbn.
  - by intros [= ->].
  - intros [= -> _]. cbn in Hs'. rewrite Hc in Hs'. discriminate.
  - intros [= -> _]. cbn in Hs. rewrite Hc in Hs. discriminate.
  - intros [= -> Heq]. cbn in Hs, Hs'.
    apply andb_true_iff in Hs as [_ Hs], Hs' as [_ Hs'].
    destruct (IH s' Hs Hs' Hc Heq) as [-> ->]. done.
Qed.

(** X11. The image file prefix tells the tiles apart: two prefixes built
    from integer tile indices are equal only if the indices are, whatever
    the tile counts and the output prefix are. *)
Theorem tile_prefix_injective (ty tx ty' tx' : Z)
    (numYTiles numXTiles prefix numYTiles' numXTiles' prefix' : pyval) :
  tile_prefix (VInt ty) (VInt tx) numYTiles numXTiles prefix
  = tile_prefix (VInt ty') (VInt tx') numYTiles' numXTiles' prefix' →
  ty = ty' ∧ tx = tx'.
Proof.
  unfold tile_prefix. cbn [str].
  change ("_tile_" +:+ ?s) with
    (String "_" (String "t" (String "i" (String "l" (String "e" (String "_" s)))))).
  intros [= Heq].
  change ("x" +:+ ?s) with (String "x" s) in Heq.
  apply numeral_split in Heq as [Hy Heq]; [|apply numeral_pretty..|reflexivity].
  change ("_" +:+ ?s) with (String "_" s) in Heq.
  apply numeral_split in Heq as [Hx _]; [|apply numeral_pretty..|reflexivity].
  split; by apply (inj pretty).
Qed.

Lemma tile_prefix_injective_witness :
  tile_prefix (VInt 1) (VInt 12) (VInt 2) (VInt 12) (VStr "img")
  ≠ tile_prefix (VInt 11) (VInt 2) (VInt 2) (VInt 12) (VStr "img").
Proof.
  intros Heq. apply tile_prefix_injective in Heq as [Hy _]. discriminate Hy.
Defined.

(** *** The resolution actions *)

Section Resolution.
Variable int_of_str : string → option Z.
Variable get_camera_to_render : State → gmap string pyval → string + pyval.

Lemma set_image_width_run data h w :
  set_image_width int_of_str data (h, w) =
  match py_int int_of_str (get_default data "image_width" (VInt 0)) with
  | inl e => ((h, w), inl e)
  | inr n => if n =? 0 then ((h, w), inr tt)
             else ((mkHandler (<["width" := VInt n]> (render_kwargs h)), w), inr tt)
  end.
Proof.
  unfold set_image_width. run.
  destruct (py_int _ _) as [e|n]; [reflexivity|]. by destruct (n =? 0).
Qed.

Lemma set_image_height_run data h w :
  set_image_height int_of_str data (h, w) =
  match py_int int_of_str (get_default data "image_height" (VInt 0)) with
  | inl e => ((h, w), inl e)
  | inr n => if n =? 0 then ((h, w), inr tt)
             else ((mkHandler (<["height" := VInt n]> (render_kwargs h)), w), inr tt)
  end.
Proof.
  unfold set_image_height. run.
  destruct (py_int _ _) as [e|n]; [reflexivity|]. by destruct (n =? 0).
Qed.

(** X12. A resolution given through [set_image_width] and
    [set_image_height] is the one every later [start_render] works with:
    the two actions return without touching the scene, and whatever the
    run-data and the scene's own resolution are, the call leaves
    ["width"] and ["height"] at the given values. *)
Theorem given_resolution_is_used
    (data : gmap string pyval) (h : Handler) (w : Host) (x y : Z) :
  py_int int_of_str (get_default data "image_width" (VInt 0)) = inr x → x ≠ 0 →
  py_int int_of_str (get_default data "image_height" (VInt 0)) = inr y → y ≠ 0 →
  let after_width := set_image_width int_of_str data (h, w) in
  let after_height := set_image_height int_of_str data (fst after_width) in
  outcome after_width = inr tt ∧ outcome after_height = inr tt ∧
  scene_after after_height = w ∧
  ∀ (data' : gmap string pyval) (w' : Host),
    let run := start_render get_camera_to_render data' (handler_after after_height, w') in
    render_kwargs (handler_after run) !! "width" = Some (VInt x) ∧
    render_kwargs (handler_after run) !! "height" = Some (VInt y).
Proof.
  intros Hx Hx0 Hy Hy0. cbn zeta.
  rewrite set_image_width_run, Hx. apply Z.eqb_neq in Hx0, Hy0. rewrite Hx0.
  cbn [fst]. rewrite set_image_height_run, Hy, Hy0.
  unfold outcome, scene_after, handler_after. cbn [fst snd].
  repeat (split; [reflexivity|]).
  intros data' w'. split.
  - apply start_render_keeps_resolution; [by left|]. cbn [render_kwargs].
    rewrite lookup_insert_ne by done. by rewrite lookup_insert_eq.
  - apply start_render_keeps_resolution; [by right|]. cbn [render_kwargs].
    by rewrite lookup_insert_eq.
Qed.

(** X13. For each of the two actions on its own: a width (a height)
    that is absent, or that [int] turns into 0, counts as not given, and
    [set_image_width] ([set_image_height]) returns and leaves the handler
    and the scene as they were; a value that [int] rejects makes the
    action raise that error, again with nothing written. The other
    action's key plays no part. *)
Theorem zero_resolution_is_not_given (data : gmap string pyval) (s : State) :
  ((∀ n, py_int int_of_str (get_default data "image_width" (VInt 0)) = inr n → n = 0) →
   set_image_width int_of_str data s
   = (s, match py_int int_of_str (get_default data "image_width" (VInt 0)) with
         | inl e => inl e
         | inr _ => inr tt
         end)) ∧
  ((∀ n, py_int int_of_str (get_default data "image_height" (VInt 0)) = inr n → n = 0) →
   set_image_height int_of_str data s
   = (s, match py_int int_of_str (get_default data "image_height" (VInt 0)) with
         | inl e => inl e
         | inr _ => inr tt
         end)).
Proof.
  destruct s as [h w]. rewrite set_image_width_run, set_image_height_run. split.
  - intros Hw.
    destruct (py_int _ (get_default data "image_width" _)) as [e|n]; [reflexivity|].
    by rewrite (Hw n eq_refl).
  - intros Hh.
    destruct (py_int _ (get_default data "image_height" _)) as [e|n]; [reflexivity|].
    by rewrite (Hh n eq_refl).
Qed.

End Resolution.

Lemma given_resolution_is_used_witness :
  let data := <["image_width" := VStr "800"]> (<["image_height" := VInt 600]> ∅) in
  let h := handler_after (set_image_height sample_int_of_str data
             (fst (set_image_width sample_int_of_str data
                     (fresh_handler, scene 1920 1080 1)))) in
  let run := start_render persp_camera (frame_data 1) (h, scene 1920 1080 1) in
  render_kwargs (handler_after run) !! "width" = Some (VInt 800) ∧
  render_kwargs (handler_after run) !! "height" = Some (VInt 600).
Proof.
  cbn zeta.
  assert ((800 : Z) ≠ 0) as H800 by lia. assert ((600 : Z) ≠ 0) as H600 by lia.
  assert (py_int sample_int_of_str
            (get_default (<["image_width" := VStr "800"]> (<["image_height" := VInt 600]> ∅))
               "image_width" (VInt 0)) = inr 800) as Hx by (vm_compute; reflexivity).
  assert (py_int sample_int_of_str
            (get_default (<["image_width" := VStr "800"]> (<["image_height" := VInt 600]> ∅))
               "image_height" (VInt 0)) = inr 600) as Hy by (vm_compute; reflexivity).
  destruct (given_resolution_is_used sample_int_of_str persp_camera
              (<["image_width" := VStr "800"]> (<["image_height" := VInt 600]> ∅))
              fresh_handler (scene 1920 1080 1) 800 600 Hx H800 Hy H600)
    as (_ & _ & _ & Huse).
  exact (Huse (frame_data 1) (scene 1920 1080 1)).
Defined.

Lemma zero_resolution_is_not_given_witness :
  set_image_width sample_int_of_str (<["image_height" := VInt 600]> ∅)
    (fresh_handler, scene 1920 1080 1)
  = ((fresh_handler, scene 1920 1080 1), inr tt) ∧
  set_image_height sample_int_of_str (<["image_height" := VNone]> ∅)
    (fresh_handler, scene 1920 1080 1)
  = ((fresh_handler, scene 1920 1080 1), inl TypeError).
Proof.
  destruct (zero_resolution_is_not_given sample_int_of_str
              (<["image_height" := VInt 600]> ∅) (fresh_handler, scene 1920 1080 1))
    as [Hw _].
  destruct (zero_resolution_is_not_given sample_int_of_str
              (<["image_height" := VNone]> ∅) (fresh_handler, scene 1920 1080 1))
    as [_ Hh].
  rewrite Hw, Hh.
  - split; vm_compute; reflexivity.
  - intros n. vm_compute. discriminate.
  - intros n. vm_compute. intros [= <-]. reflexivity.
Defined.

End ArnoldExtras.

(** * Further properties of the submitter command *)

Module SubmitterExtras.

Import Py Submitter.

Section Command.

Variables Settings UISettings : Type.
Variable default_ui_settings : UISettings.
Variable apply_saved_settings : UISettings → Settings → UISettings.
Variable truthy : Settings → bool.
Variable dumps_asdict : UISettings → string.
Variable gui_error_handler : string → Widget → exn → option exn.

Local Abbreviation command :=
  (doIt default_ui_settings apply_saved_settings truthy dumps_asdict gui_error_handler).

(** The settings the submitter opens with. *)
Lemma open_submitter_events mainwin maybe_rs_settings e :
  e ∈ open_submitter Settings UISettings default_ui_settings apply_saved_settings
        truthy dumps_asdict mainwin maybe_rs_settings →
  ∃ settings, (e = ESetResult (dumps_asdict settings)
               ∨ e = EShowSubmitter mainwin settings) ∧
    open_submitter Settings UISettings default_ui_settings apply_saved_settings
      truthy dumps_asdict mainwin maybe_rs_settings
    = [ESetResult (dumps_asdict settings); EShowSubmitter mainwin settings].
Proof.
  unfold open_submitter. cbn zeta. intros He.
  apply elem_of_cons in He as [->|He]; [eauto|].
  apply elem_of_cons in He as [->|He]; [eauto|].
  by apply elem_of_nil in He.
Qed.

(** X14. The submitter dialog is opened only in UI mode and on a saved
    scene; its parent is then a top-level widget named [MayaWindow], and
    the call that opens it comes right after the [setResult] call that
    sets the command result to the serialization of the very settings
    the dialog is opened with. *)
Theorem submitter_shown_only_after_result
    (env : Env Settings) (parent : Widget) (settings : UISettings) :
  EShowSubmitter parent settings ∈ fst (command env) →
  mayaState env ∈ [kInteractive; kBaseUIMode] ∧
  sceneName env ≠ "" ∧
  parent ∈ topLevelWidgets env ∧ objectName parent = "MayaWindow" ∧
  ∃ before,
    fst (command env)
    = before ++ [ESetResult (dumps_asdict settings); EShowSubmitter parent settings] ∧
    Forall (λ e, is_setResult e = false ∧ is_show e = false) before.
Proof.
  unfold doIt. case_bool_decide as Hui; [|by intros ?%elem_of_nil].
  destruct (filter _ (topLevelWidgets env)) as [|mainwin others] eqn:Hwin;
    [by intros ?%elem_of_nil|].
  assert (mainwin ∈ topLevelWidgets env ∧ objectName mainwin = "MayaWindow")
    as [Hin Hname].
  { assert (mainwin ∈ filter (λ widget, objectName widget = "MayaWindow")
                       (topLevelWidgets env)) as Hm
      by (rewrite Hwin; apply list_elem_of_here).
    apply list_elem_of_filter in Hm as [? ?]. done. }
  unfold doIt_body.
  destruct (String.eqb_spec (sceneName env) "") as [Hscene|Hscene].
  { cbn [fst]. intros He. apply elem_of_cons in He as [?|He]; [discriminate|].
    apply elem_of_cons in He as [?|He]; [discriminate|]. by apply elem_of_nil in He. }
  destruct (load env) as [maybe| |e]; cbn [fst snd].
  - intros He. apply elem_of_cons in He as [?|He]; [discriminate|].
    apply elem_of_cons in He as [?|He]; [discriminate|].
    apply open_submitter_events in He as (settings' & [?|[= -> ->]] & ->);
      [discriminate|].
    repeat (split; [done|]).
    exists [ELoggerInfo "Opening Amazon Deadline Cloud Submitter"; ELoadSettings].
    split; [reflexivity|]. repeat constructor.
  - intros He. apply elem_of_cons in He as [?|He]; [discriminate|].
    apply elem_of_cons in He as [?|He]; [discriminate|].
    apply elem_of_cons in He as [?|He]; [discriminate|].
    apply open_submitter_events in He as (settings' & [?|[= -> ->]] & ->);
      [discriminate|].
    repeat (split; [done|]).
    exists [ELoggerInfo "Opening Amazon Deadline Cloud Submitter"; ELoadSettings;
            ETracebackPrintExc].
    split; [reflexivity|]. repeat constructor.
  - intros He. apply elem_of_cons in He as [?|He]; [discriminate|].
    apply elem_of_cons in He as [?|He]; [discriminate|].
    apply elem_of_cons in He as [?|He]; [discriminate|]. by apply elem_of_nil in He.
Qed.

(** X15. On a saved scene in UI mode, settings that load and count as
    true are applied to the default UI settings, and it is the outcome of
    that which the command serializes as its result and opens the
    submitter with; settings that load but count as false are ignored. *)
Theorem saved_settings_are_applied
    (env : Env Settings) (mainwin : Widget) (others : list Widget) (saved : Settings) :
  mayaState env ∈ [kInteractive; kBaseUIMode] →
  filter (λ widget, objectName widget = "MayaWindow") (topLevelWidgets env)
  = mainwin :: others →
  sceneName env ≠ "" →
  load env = LoadReturns (Some saved) →
  let shown := if truthy saved
               then apply_saved_settings default_ui_settings saved
               else default_ui_settings in
  command env
  = ([ELoggerInfo "Opening Amazon Deadline Cloud Submitter";
      ELoadSettings;
      ESetResult (dumps_asdict shown);
      EShowSubmitter mainwin shown],
     inr tt).
Proof.
  intros Hui Hwin Hscene Hload. cbn zeta.
  apply String.eqb_neq in Hscene.
  unfold doIt. rewrite (bool_decide_eq_true_2 _ Hui), Hwin.
  unfold doIt_body. rewrite Hscene, Hload. reflexivity.
Qed.

(** X16. In UI mode without a top-level widget named [MayaWindow] the
    command raises [IndexError] at once: nothing is logged, no dialog is
    shown, and the error does not pass through [gui_error_handler]. *)
Theorem missing_main_window_raises (env : Env Settings) :
  mayaState env ∈ [kInteractive; kBaseUIMode] →
  Forall (λ widget, objectName widget ≠ "MayaWindow") (topLevelWidgets env) →
  command env = ([], inl IndexError).
Proof.
  intros Hui Hnone. unfold doIt. rewrite (bool_decide_eq_true_2 _ Hui).
  destruct (filter _ (topLevelWidgets env)) as [|mainwin others] eqn:Hwin; [reflexivity|].
  assert (mainwin ∈ filter (λ widget, objectName widget = "MayaWindow")
                     (topLevelWidgets env)) as Hm
    by (rewrite Hwin; apply list_elem_of_here).
  apply list_elem_of_filter in Hm as [Hname Hin].
  rewrite Forall_forall in Hnone. by destruct (Hnone mainwin Hin).
Qed.

(** X17. When the load raises anything but [PersistentDataclassError],
    the command neither sets a result nor opens the submitter: the error
    reaches [gui_error_handler] with the command's title and the main
    window, and the command ends as the handler decides. *)
Theorem other_load_error_is_handed_over
    (env : Env Settings) (mainwin : Widget) (others : list Widget) (e : exn) :
  mayaState env ∈ [kInteractive; kBaseUIMode] →
  filter (λ widget, objectName widget = "MayaWindow") (topLevelWidgets env)
  = mainwin :: others →
  sceneName env ≠ "" →
  load env = LoadRaises e →
  command env
  = ([ELoggerInfo "Opening Amazon Deadline Cloud Submitter";
      ELoadSettings;
      EGuiErrorHandler "Error opening the Deadline Cloud Submitter" mainwin e],
     match gui_error_handler "Error opening the Deadline Cloud Submitter" mainwin e with
     | Some e' => inl e'
     | None => inr tt
     end).
Proof.
  intros Hui Hwin Hscene Hload. apply String.eqb_neq in Hscene.
  unfold doIt. rewrite (bool_decide_eq_true_2 _ Hui), Hwin.
  unfold doIt_body. rewrite Hscene, Hload. reflexivity.
Qed.

End Command.

Lemma submitter_shown_only_after_result_witness :
  EShowSubmitter maya_window [("frames", "1-10")] ∈ fst (sample_doIt failing_load_env) ∧
  ∃ before,
    fst (sample_doIt failing_load_env)
    = before ++ [ESetResult "frames=1-10;"; EShowSubmitter maya_window [("frames", "1-10")]].
Proof.
  assert (EShowSubmitter maya_window [("frames", "1-10")]
          ∈ fst (sample_doIt failing_load_env)) as Hshown.
  { vm_compute. do 4 apply list_elem_of_further. apply list_elem_of_here. }
  split; [exact Hshown|].
  destruct (submitter_shown_only_after_result _ _ sample_defaults sample_apply
              (λ _, true) sample_dumps sample_handler failing_load_env
              maya_window [("frames", "1-10")] Hshown)
    as (_ & _ & _ & _ & before & Horder & _).
  exists before. exact Horder.
Defined.

Lemma saved_settings_are_applied_witness :
  load saved_settings_env = LoadReturns (Some [("priority", "50")]) ∧
  sample_doIt saved_settings_env
  = ([ELoggerInfo "Opening Amazon Deadline Cloud Submitter";
      ELoadSettings;
      ESetResult "priority=50;frames=1-10;";
      EShowSubmitter maya_window [("priority", "50"); ("frames", "1-10")]],
     inr tt).
Proof.
  split; [reflexivity|].
  refine (saved_settings_are_applied _ _ sample_defaults sample_apply (λ _, true)
            sample_dumps sample_handler saved_settings_env maya_window []
            [("priority", "50")] _ _ _ _).
  - simpl. apply list_elem_of_here.
  - reflexivity.
  - vm_compute. discriminate.
  - reflexivity.
Defined.

Lemma missing_main_window_raises_witness :
  sample_doIt windowless_env = ([], inl IndexError).
Proof.
  apply (missing_main_window_raises _ _ sample_defaults sample_apply (λ _, true)
           sample_dumps sample_handler windowless_env).
  - simpl. apply list_elem_of_further, list_elem_of_here.
  - repeat constructor. vm_compute. discriminate.
Defined.

Lemma other_load_error_is_handed_over_witness :
  load broken_load_env = LoadRaises (OtherError "PermissionError") ∧
  sample_doIt broken_load_env
  = ([ELoggerInfo "Opening Amazon Deadline Cloud Submitter";
      ELoadSettings;
      EGuiErrorHandler "Error opening the Deadline Cloud Submitter" maya_window
        (OtherError "PermissionError")],
     inr tt).
Proof.
  split; [reflexivity|].
  refine (other_load_error_is_handed_over _ _ sample_defaults sample_apply (λ _, true)
            sample_dumps sample_handler broken_load_env maya_window []
            (OtherError "PermissionError") _ _ _ _).
  - simpl. apply list_elem_of_here.
  - reflexivity.
  - vm_compute. discriminate.
  - reflexivity.
Defined.

End SubmitterExtras.
